(** * libfprint: the imaging-device core (libfprint/fpi-dev-img.c)

    A shallow embedding of the per-device acquisition state machine of
    [fpi-dev-img.c]: image sanitation, the minutiae acceptance gate, the
    enrollment accumulator, the verify/identify decision and the
    start/stop plumbing.

    Conventions of the embedding.
    - C [int] values are [Z]; the one arithmetic operation of the file,
      [enroll_stage++], is written with its 32-bit wrap-around.
    - Pointers that may be NULL are [option]s; dereferencing NULL and a
      failed [BUG_ON] abort the call.
    - The device record is threaded through a small state monad [M] that also
      carries the trace of what the core does to its surroundings: calls of
      the driver's callables, upward notifications ([fpi_drvcb_*]) and
      releases of images and templates.  Driver callables are asynchronous:
      a call is a trace entry and a return code, and its completion is a
      later [fpi_imgdev_*_complete] event.  An upward notification is a trace
      entry as well; what the front end does on receiving it is a later call,
      except for the enroll-stage callback, after which the source looks at
      the action again: there the front end's code is a parameter (class
      [front_end]) that runs inside the callback.
    - Functions and constants that live in other files of the library
      (result codes of fprint.h, extraction, comparison, allocation of
      templates) are the fields of two classes, so every theorem holds for
      all of them. *)

From Stdlib Require Import ZArith List Bool Lia.
From Stdlib Require String.
Import String.StringSyntax.
Delimit Scope string_scope with string.
Import ListNotations.
Local Open Scope Z_scope.

(** ** Constants of the file *)

Definition MIN_ACCEPTABLE_MINUTIAE : Z := 10.
Definition BOZORTH3_DEFAULT_THRESHOLD : Z := 40.
Definition IMG_ENROLL_STAGES : Z := 5.

(** errno.h (Linux): the two codes the file returns negated. *)
Definition EINVAL : Z := 22.
Definition ENOTSUP : Z := 95.

(** C [int]: 32 bits, two's complement. *)
Definition INT_MAX : Z := 2147483647.
Definition INT_MIN : Z := -2147483648.
Definition wrap_int (z : Z) : Z := (z - INT_MIN) mod 4294967296 + INT_MIN.

(** ** Enumerations *)

(** [enum fp_imgdev_action] *)
Inductive fp_imgdev_action : Type :=
| IMG_ACTION_NONE
| IMG_ACTION_ENROLL
| IMG_ACTION_VERIFY
| IMG_ACTION_IDENTIFY
| IMG_ACTION_CAPTURE.

(** [enum fp_imgdev_enroll_state], the type of [action_state].
    [IMG_ACQUIRE_STATE_NONE] is the value 0 that [g_malloc0] and
    [fpi_imgdev_deactivate_complete] leave (the spec's Inactive). *)
Inductive fp_imgdev_enroll_state : Type :=
| IMG_ACQUIRE_STATE_NONE
| IMG_ACQUIRE_STATE_ACTIVATING
| IMG_ACQUIRE_STATE_AWAIT_FINGER_ON
| IMG_ACQUIRE_STATE_AWAIT_IMAGE
| IMG_ACQUIRE_STATE_AWAIT_FINGER_OFF
| IMG_ACQUIRE_STATE_DEACTIVATING.

(** [enum fp_imgdev_state], what the core asks of the driver. *)
Inductive fp_imgdev_state : Type :=
| IMGDEV_STATE_AWAIT_FINGER_ON
| IMGDEV_STATE_CAPTURE
| IMGDEV_STATE_AWAIT_FINGER_OFF.

Inductive fp_print_data_type : Type :=
| PRINT_DATA_RAW
| PRINT_DATA_NBIS_MINUTIAE.

Definition action_eqb (a b : fp_imgdev_action) : bool :=
  match a, b with
  | IMG_ACTION_NONE, IMG_ACTION_NONE
  | IMG_ACTION_ENROLL, IMG_ACTION_ENROLL
  | IMG_ACTION_VERIFY, IMG_ACTION_VERIFY
  | IMG_ACTION_IDENTIFY, IMG_ACTION_IDENTIFY
  | IMG_ACTION_CAPTURE, IMG_ACTION_CAPTURE => true
  | _, _ => false
  end.

Definition state_eqb (a b : fp_imgdev_enroll_state) : bool :=
  match a, b with
  | IMG_ACQUIRE_STATE_NONE, IMG_ACQUIRE_STATE_NONE
  | IMG_ACQUIRE_STATE_ACTIVATING, IMG_ACQUIRE_STATE_ACTIVATING
  | IMG_ACQUIRE_STATE_AWAIT_FINGER_ON, IMG_ACQUIRE_STATE_AWAIT_FINGER_ON
  | IMG_ACQUIRE_STATE_AWAIT_IMAGE, IMG_ACQUIRE_STATE_AWAIT_IMAGE
  | IMG_ACQUIRE_STATE_AWAIT_FINGER_OFF, IMG_ACQUIRE_STATE_AWAIT_FINGER_OFF
  | IMG_ACQUIRE_STATE_DEACTIVATING, IMG_ACQUIRE_STATE_DEACTIVATING => true
  | _, _ => false
  end.

(** ** Images and templates *)

(** [struct fp_minutiae]: only [num] is read here. *)
Record fp_minutiae : Type := { num : Z }.

(** [struct fp_img]: declared geometry, pixel buffer, detected minutiae. *)
Record fp_img : Type := {
  width : Z;
  height : Z;
  data : list Z;
  minutiae : option fp_minutiae
}.

(** [struct fp_print_data_item]: one feature set, [length] bytes. *)
Record fp_print_data_item : Type := {
  length : Z;
  item_data : list Z
}.

(** [g_slist_length] *)
Definition g_slist_length {A : Type} (l : list A) : nat := List.length l.

(** [struct fp_print_data]: a typed list of items ([GSList *prints]). *)
Record fp_print_data : Type := {
  type : fp_print_data_type;
  prints : list fp_print_data_item
}.

(** ** Driver and device records *)

(** [struct fp_img_driver]: declared geometry and threshold, and the optional
    callables.  A callable is its return code; [deactivate] returns void. *)
Record fp_img_driver : Type := {
  img_width : Z;
  img_height : Z;
  bz3_threshold : Z;
  change_state : option (fp_imgdev_state -> Z);
  activate : option (fp_imgdev_state -> Z);
  deactivate : option unit;
  open : option (Z -> Z)
}.

(** [struct fp_img_dev] *)
Record fp_img_dev : Type := {
  action : fp_imgdev_action;
  action_state : fp_imgdev_enroll_state;
  action_result : Z;
  enroll_stage : Z;
  enroll_data : option fp_print_data;
  acquire_img : option fp_img;
  acquire_data : option fp_print_data;
  identify_match_offset : Z
}.

(** [struct fp_dev], the fields this file reads, with its [img_dev]. *)
Record fp_dev : Type := {
  drv : fp_img_driver;
  nr_enroll_stages : Z;
  unconditional_capture : bool;
  verify_data : option fp_print_data;
  identify_gallery : list fp_print_data;
  img_dev : fp_img_dev
}.

(** Field assignments. *)

Definition set_width (v : Z) (i : fp_img) : fp_img :=
  {| width := v; height := height i; data := data i; minutiae := minutiae i |}.

Definition set_height (v : Z) (i : fp_img) : fp_img :=
  {| width := width i; height := v; data := data i; minutiae := minutiae i |}.

Definition set_type (v : fp_print_data_type) (p : fp_print_data) : fp_print_data :=
  {| type := v; prints := prints p |}.

Definition set_prints (v : list fp_print_data_item) (p : fp_print_data) : fp_print_data :=
  {| type := type p; prints := v |}.

Definition set_action (v : fp_imgdev_action) (d : fp_img_dev) : fp_img_dev :=
  {| action := v; action_state := action_state d;
     action_result := action_result d; enroll_stage := enroll_stage d;
     enroll_data := enroll_data d; acquire_img := acquire_img d;
     acquire_data := acquire_data d;
     identify_match_offset := identify_match_offset d |}.

Definition set_action_state (v : fp_imgdev_enroll_state) (d : fp_img_dev) : fp_img_dev :=
  {| action := action d; action_state := v;
     action_result := action_result d; enroll_stage := enroll_stage d;
     enroll_data := enroll_data d; acquire_img := acquire_img d;
     acquire_data := acquire_data d;
     identify_match_offset := identify_match_offset d |}.

Definition set_action_result (v : Z) (d : fp_img_dev) : fp_img_dev :=
  {| action := action d; action_state := action_state d;
     action_result := v; enroll_stage := enroll_stage d;
     enroll_data := enroll_data d; acquire_img := acquire_img d;
     acquire_data := acquire_data d;
     identify_match_offset := identify_match_offset d |}.

Definition set_enroll_stage (v : Z) (d : fp_img_dev) : fp_img_dev :=
  {| action := action d; action_state := action_state d;
     action_result := action_result d; enroll_stage := v;
     enroll_data := enroll_data d; acquire_img := acquire_img d;
     acquire_data := acquire_data d;
     identify_match_offset := identify_match_offset d |}.

Definition set_enroll_data (v : option fp_print_data) (d : fp_img_dev) : fp_img_dev :=
  {| action := action d; action_state := action_state d;
     action_result := action_result d; enroll_stage := enroll_stage d;
     enroll_data := v; acquire_img := acquire_img d;
     acquire_data := acquire_data d;
     identify_match_offset := identify_match_offset d |}.

Definition set_acquire_img (v : option fp_img) (d : fp_img_dev) : fp_img_dev :=
  {| action := action d; action_state := action_state d;
     action_result := action_result d; enroll_stage := enroll_stage d;
     enroll_data := enroll_data d; acquire_img := v;
     acquire_data := acquire_data d;
     identify_match_offset := identify_match_offset d |}.

Definition set_acquire_data (v : option fp_print_data) (d : fp_img_dev) : fp_img_dev :=
  {| action := action d; action_state := action_state d;
     action_result := action_result d; enroll_stage := enroll_stage d;
     enroll_data := enroll_data d; acquire_img := acquire_img d;
     acquire_data := v;
     identify_match_offset := identify_match_offset d |}.

Definition set_identify_match_offset (v : Z) (d : fp_img_dev) : fp_img_dev :=
  {| action := action d; action_state := action_state d;
     action_result := action_result d; enroll_stage := enroll_stage d;
     enroll_data := enroll_data d; acquire_img := acquire_img d;
     acquire_data := acquire_data d;
     identify_match_offset := v |}.

Definition set_img_dev (v : fp_img_dev) (dev : fp_dev) : fp_dev :=
  {| drv := drv dev; nr_enroll_stages := nr_enroll_stages dev;
     unconditional_capture := unconditional_capture dev;
     verify_data := verify_data dev;
     identify_gallery := identify_gallery dev; img_dev := v |}.

Definition set_nr_enroll_stages (v : Z) (dev : fp_dev) : fp_dev :=
  {| drv := drv dev; nr_enroll_stages := v;
     unconditional_capture := unconditional_capture dev;
     verify_data := verify_data dev;
     identify_gallery := identify_gallery dev; img_dev := img_dev dev |}.

(** What [g_malloc0(sizeof(struct fp_img_dev))] returns. *)
Definition imgdev_zero : fp_img_dev :=
  {| action := IMG_ACTION_NONE; action_state := IMG_ACQUIRE_STATE_NONE;
     action_result := 0; enroll_stage := 0; enroll_data := None;
     acquire_img := None; acquire_data := None;
     identify_match_offset := 0 |}.

(** ** The surroundings of the core *)

(** What a call does to the outside, in order. *)
Inductive effect : Type :=
(* calls of the driver's callables *)
| DrvChangeState (state : fp_imgdev_state)
| DrvActivate (state : fp_imgdev_state)
| DrvDeactivate
| DrvOpen (driver_data : Z)
(* releases that reach an object: fp_img_free, fp_print_data_free *)
| ImgFree (img : fp_img)
| PrintDataFree (p : fp_print_data)
(* upward notifications, fpi_drvcb_* *)
| EnrollStageCompleted (r : Z) (tmpl : option fp_print_data) (img : option fp_img)
| ReportVerifyResult (r : Z) (img : option fp_img)
| ReportIdentifyResult (r : Z) (match_offset : Z) (img : option fp_img)
| ReportCaptureResult (r : Z) (img : option fp_img)
| OpenComplete (status : Z)
| EnrollStarted (status : Z)
| VerifyStarted (status : Z)
| IdentifyStarted (status : Z)
| CaptureStarted (status : Z)
| EnrollStopped
| VerifyStopped
| IdentifyStopped
| CaptureStopped.

(** The four decision notifications of a finger cycle. *)
Definition is_result_callback (e : effect) : bool :=
  match e with
  | EnrollStageCompleted _ _ _ | ReportVerifyResult _ _
  | ReportIdentifyResult _ _ _ | ReportCaptureResult _ _ => true
  | _ => false
  end.

(** Result codes of fprint.h ([enum fp_enroll_result], [fp_verify_result],
    [fp_capture_result]); the header is not part of this file, so the codes
    are parameters. *)
Class fprint_h : Type := {
  FP_ENROLL_COMPLETE : Z;
  FP_ENROLL_FAIL : Z;
  FP_ENROLL_PASS : Z;
  FP_ENROLL_RETRY : Z;
  FP_VERIFY_NO_MATCH : Z;
  FP_VERIFY_MATCH : Z;
  FP_CAPTURE_COMPLETE : Z
}.

(** Functions of the library this file calls and does not define. *)
Class collaborators : Type := {
  (* gboolean fpi_img_is_sane(struct fp_img *img) *)
  fpi_img_is_sane : fp_img -> bool;
  (* void fp_img_standardize(struct fp_img *img), in place *)
  fp_img_standardize : fp_img -> fp_img;
  (* int fpi_img_to_print_data(imgdev, img, &print): the return code, the
     template stored through the out-parameter, and the image with the
     minutiae the call attaches to it *)
  fpi_img_to_print_data : fp_dev -> fp_img -> Z * option fp_print_data * fp_img;
  (* int fpi_img_compare_print_data(enrolled, new) *)
  fpi_img_compare_print_data : option fp_print_data -> option fp_print_data -> Z;
  (* int fpi_img_compare_print_data_to_gallery(print, gallery, match_threshold,
     &match_offset): the return code and the offset stored *)
  fpi_img_compare_print_data_to_gallery :
    option fp_print_data -> list fp_print_data -> Z -> Z * Z;
  (* struct fp_print_data *fpi_print_data_new(struct fp_dev *dev) *)
  fpi_print_data_new : fp_dev -> fp_print_data;
  (* struct fp_print_data_item *fpi_print_data_item_new(size_t length) *)
  fpi_print_data_item_new : Z -> fp_print_data_item;
  (* sizeof(struct xyt_struct), from bozorth.h *)
  sizeof_xyt_struct : Z
}.

(** ** The monad of the core: device state, trace, abort *)

Record world : Type := {
  w_dev : fp_dev;
  w_log : list effect
}.

Definition M (A : Type) : Type := world -> option (A * world).

Definition ret {A : Type} (a : A) : M A := fun w => Some (a, w).

Definition bind {A B : Type} (m : M A) (k : A -> M B) : M B :=
  fun w => match m w with
           | Some (a, w') => k a w'
           | None => None
           end.

(** Modelled from the spec: the [BUG_ON]/[BUG] macros of fp_internal.h, which
    is not in this file; a failed assertion is fatal ("fatal assertion, not
    recoverable").  The same outcome stands for a NULL dereference. *)
Definition abort {A : Type} : M A := fun _ => None.

Definition BUG_ON (condition : bool) : M unit :=
  if condition then abort else ret tt.

Definition get_dev : M fp_dev := fun w => Some (w_dev w, w).

Definition get_imgdev : M fp_img_dev := fun w => Some (img_dev (w_dev w), w).

Definition modify (f : fp_img_dev -> fp_img_dev) : M unit :=
  fun w => Some (tt, {| w_dev := set_img_dev (f (img_dev (w_dev w))) (w_dev w);
                        w_log := w_log w |}).

Definition modify_dev (f : fp_dev -> fp_dev) : M unit :=
  fun w => Some (tt, {| w_dev := f (w_dev w); w_log := w_log w |}).

Definition emit (e : effect) : M unit :=
  fun w => Some (tt, {| w_dev := w_dev w; w_log := w_log w ++ [e] |}).

Notation "x <- m ;; k" := (bind m (fun x => k))
  (at level 61, m at next level, right associativity).
Notation "m ;; k" := (bind m (fun _ => k))
  (at level 61, right associativity).

(** [fp_dbg], [fp_err]: debug output, no effect on the device. *)
Definition fp_dbg (message : String.string) : M unit := ret tt.

(** [fp_img_free] and [fp_print_data_free] accept NULL and then do nothing. *)
Definition fp_img_free (img : option fp_img) : M unit :=
  match img with
  | Some i => emit (ImgFree i)
  | None => ret tt
  end.

Definition fp_print_data_free (p : option fp_print_data) : M unit :=
  match p with
  | Some d => emit (PrintDataFree d)
  | None => ret tt
  end.

(** The front end, as far as the core depends on it: the code it runs inside
    the enroll-stage callback, before the callback returns.  It may call back
    into the core (cancel the enrollment), which is why
    [fpi_imgdev_report_finger_status] looks at the action again afterwards. *)
Class front_end : Type := {
  enroll_stage_completed_cb :
    Z -> option fp_print_data -> option fp_img -> M unit
}.

(** ** The operations of fpi-dev-img.c *)

Section ImgDev.

Context {codes : fprint_h} {ext : collaborators} {fe : front_end}.

Definition fpi_imgdev_get_action_state : M fp_imgdev_enroll_state :=
  d <- get_imgdev ;; ret (action_state d).

Definition fpi_imgdev_get_action : M fp_imgdev_action :=
  d <- get_imgdev ;; ret (action d).

Definition fpi_imgdev_get_action_result : M Z :=
  d <- get_imgdev ;; ret (action_result d).

Definition fpi_imgdev_set_action_result (result : Z) : M unit :=
  modify (set_action_result result).

(** [dev_change_state]: forwards to the driver when it has the callable. *)
Definition dev_change_state (state : fp_imgdev_state) : M Z :=
  dev <- get_dev ;;
  match change_state (drv dev) with
  | None => ret 0
  | Some f => emit (DrvChangeState state) ;; ret (f state)
  end.

(** [sanitize_image]: the return code and the image as the call leaves it
    (the fields are assigned in place). *)
Definition sanitize_image (dev : fp_dev) (img : fp_img) : Z * fp_img :=
  let imgdrv := drv dev in
  let check_sane (img : fp_img) :=
    if negb (fpi_img_is_sane img) then (- EINVAL, img)   (* image is not sane! *)
    else (0, img) in
  let check_height (img : fp_img) :=
    if 0 <? img_height imgdrv then
      check_sane (set_height (img_height imgdrv) img)
    else if height img <=? 0 then (- EINVAL, img)   (* no image height assigned *)
    else check_sane img in
  if 0 <? img_width imgdrv then
    check_height (set_width (img_width imgdrv) img)
  else if width img <=? 0 then (- EINVAL, img)   (* no image width assigned *)
  else check_height img.

(** Upward notifications: entries of the trace.  The enroll-stage callback
    also runs the front end's code before it returns. *)
Definition fpi_drvcb_enroll_stage_completed (r : Z)
    (tmpl : option fp_print_data) (img : option fp_img) : M unit :=
  emit (EnrollStageCompleted r tmpl img) ;;
  enroll_stage_completed_cb r tmpl img.

Definition fpi_drvcb_report_verify_result (r : Z) (img : option fp_img) : M unit :=
  emit (ReportVerifyResult r img).

Definition fpi_drvcb_report_identify_result (r : Z) (match_offset : Z)
    (img : option fp_img) : M unit :=
  emit (ReportIdentifyResult r match_offset img).

Definition fpi_drvcb_report_capture_result (r : Z) (img : option fp_img) : M unit :=
  emit (ReportCaptureResult r img).

(** [fpi_imgdev_report_finger_status].  The branch that logs that it ignores
    the report has its [return] commented out in the source, so it only logs
    and control reaches the reporting code below it. *)
Definition fpi_imgdev_report_finger_status (present : bool) : M unit :=
  d <- get_imgdev ;;
  dev <- get_dev ;;
  let r := action_result d in
  let data := acquire_data d in
  let img := acquire_img d in
  let item := fpi_print_data_item_new sizeof_xyt_struct in
  let print := set_type PRINT_DATA_NBIS_MINUTIAE (fpi_print_data_new dev) in
  let print := set_prints (item :: prints print) print in
  if present && state_eqb (action_state d) IMG_ACQUIRE_STATE_AWAIT_FINGER_ON then
    _ <- dev_change_state IMGDEV_STATE_CAPTURE ;;
    modify (set_action_state IMG_ACQUIRE_STATE_AWAIT_IMAGE)
  else
    (if present
        || negb (state_eqb (action_state d) IMG_ACQUIRE_STATE_AWAIT_FINGER_OFF)
     then fp_dbg "ignoring status report"%string   (* //  return; *)
     else ret tt) ;;
    (* clear these before reporting results *)
    modify (set_acquire_img None) ;;
    modify (set_acquire_data None) ;;
    (* finger removed, report results *)
    match action d with
    | IMG_ACTION_ENROLL =>
        let data := Some print in   (* data = print; //imgdev->enroll_data; *)
        (if r =? FP_ENROLL_COMPLETE
         then modify (set_enroll_data None) else ret tt) ;;
        fpi_drvcb_enroll_stage_completed r
          (if r =? FP_ENROLL_COMPLETE then data else None) img ;;
        (* recheck current action and the status to see if retry is needed *)
        d' <- get_imgdev ;;
        if action_eqb (action d') IMG_ACTION_ENROLL && (0 <? r)
           && negb (r =? FP_ENROLL_COMPLETE) && negb (r =? FP_ENROLL_FAIL)
        then
          modify (set_action_result 0) ;;
          modify (set_action_state IMG_ACQUIRE_STATE_AWAIT_FINGER_ON) ;;
          _ <- dev_change_state IMGDEV_STATE_AWAIT_FINGER_ON ;;
          ret tt
        else ret tt
    | IMG_ACTION_VERIFY =>
        fpi_drvcb_report_verify_result r img ;;
        modify (set_action_result 0) ;;
        fp_print_data_free data
    | IMG_ACTION_IDENTIFY =>
        fpi_drvcb_report_identify_result r (identify_match_offset d) img ;;
        modify (set_action_result 0) ;;
        fp_print_data_free data
    | IMG_ACTION_CAPTURE =>
        fpi_drvcb_report_capture_result r img ;;
        modify (set_action_result 0)
    | IMG_ACTION_NONE => ret tt   (* default: fp_err("unhandled action") *)
    end.

(** The threshold both decisions use. *)
Definition match_threshold (dev : fp_dev) : Z :=
  if bz3_threshold (drv dev) =? 0 then BOZORTH3_DEFAULT_THRESHOLD
  else bz3_threshold (drv dev).

Definition verify_process_img : M unit :=
  dev <- get_dev ;;
  d <- get_imgdev ;;
  let match_score := match_threshold dev in
  let r := fpi_img_compare_print_data (verify_data dev) (acquire_data d) in
  let r := if match_score <=? r then FP_VERIFY_MATCH
           else if 0 <=? r then FP_VERIFY_NO_MATCH
           else r in
  modify (set_action_result r).

Definition identify_process_img : M unit :=
  dev <- get_dev ;;
  d <- get_imgdev ;;
  let match_score := match_threshold dev in
  let '(r, match_offset) :=
    fpi_img_compare_print_data_to_gallery (acquire_data d)
      (identify_gallery dev) match_score in
  modify (set_action_result r) ;;
  modify (set_identify_match_offset match_offset).

Definition fpi_imgdev_abort_scan (result : Z) : M unit :=
  modify (set_action_result result) ;;
  modify (set_action_state IMG_ACQUIRE_STATE_AWAIT_FINGER_OFF) ;;
  _ <- dev_change_state IMGDEV_STATE_AWAIT_FINGER_OFF ;;
  ret tt.

(** The label [next_state] of [fpi_imgdev_image_captured]. *)
Definition next_state : M unit :=
  modify (set_action_state IMG_ACQUIRE_STATE_AWAIT_FINGER_OFF) ;;
  _ <- dev_change_state IMGDEV_STATE_AWAIT_FINGER_OFF ;;
  ret tt.

(** The [IMG_ACTION_ENROLL] case of the switch: the item of this cycle moves
    from [print] to the head of [enroll_data->prints]; [acquire_data] is the
    same object as [print], so what is freed is the emptied wrapper. *)
Definition enroll_process_img (print : option fp_print_data) : M unit :=
  dev <- get_dev ;;
  d <- get_imgdev ;;
  let acc := match enroll_data d with
             | Some e => e
             | None => fpi_print_data_new dev
             end in
  match print with
  | None => abort
  | Some p =>
      BUG_ON (negb (Nat.eqb (g_slist_length (prints p)) 1)) ;;
      match prints p with
      | [] => abort
      | item :: rest =>
          modify (set_enroll_data (Some (set_prints (item :: prints acc) acc))) ;;
          modify (set_acquire_data (Some (set_prints rest p))) ;;
          fp_print_data_free (Some (set_prints rest p)) ;;
          modify (set_acquire_data None) ;;
          modify (set_enroll_stage (wrap_int (enroll_stage d + 1))) ;;
          if wrap_int (enroll_stage d + 1) =? nr_enroll_stages dev
          then modify (set_action_result FP_ENROLL_COMPLETE)
          else modify (set_action_result FP_ENROLL_PASS)
      end
  end.

(** From [imgdev->acquire_data = print] to the end of the switch: the
    decision step of a cycle. *)
Definition decision_step (print : option fp_print_data) : M unit :=
  modify (set_acquire_data print) ;;
  d <- get_imgdev ;;
  match action d with
  | IMG_ACTION_ENROLL => enroll_process_img print
  | IMG_ACTION_VERIFY => verify_process_img
  | IMG_ACTION_IDENTIFY => identify_process_img
  | IMG_ACTION_CAPTURE => modify (set_action_result FP_CAPTURE_COMPLETE)
  | IMG_ACTION_NONE => abort   (* default: BUG() *)
  end.

(** [fpi_imgdev_image_captured].  [acquire_img] points to the image the
    extraction works on, so it sees the minutiae the extraction attaches. *)
Definition fpi_imgdev_image_captured (img : fp_img) : M unit :=
  d <- get_imgdev ;;
  dev <- get_dev ;;
  if negb (state_eqb (action_state d) IMG_ACQUIRE_STATE_AWAIT_IMAGE) then
    ret tt   (* ignoring due to current state *)
  else if negb (action_result d =? 0) then
    ret tt   (* not overwriting existing action result *)
  else
    let '(r, img) := sanitize_image dev img in
    if r <? 0 then
      modify (set_action_result r) ;;
      fp_img_free (Some img) ;;
      next_state
    else
      let img := fp_img_standardize img in
      modify (set_acquire_img (Some img)) ;;
      if negb (action_eqb (action d) IMG_ACTION_CAPTURE) then
        imgdev <- get_dev ;;
        let '(r, print, img) := fpi_img_to_print_data imgdev img in
        modify (set_acquire_img (Some img)) ;;
        if r <? 0 then
          modify (set_action_result FP_ENROLL_RETRY) ;;
          next_state
        else
          match minutiae img with
          | None => abort
          | Some m =>
              if num m <? MIN_ACCEPTABLE_MINUTIAE then
                fp_print_data_free print ;;
                modify (set_action_result FP_ENROLL_RETRY) ;;
                next_state
              else
                decision_step print ;;
                next_state
          end
      else
        decision_step None ;;
        next_state.

(** [img_dev_open].  On the error path the record is freed and
    [dev->img_dev] dangles; the device is used no further. *)
Definition img_dev_open (driver_data : Z) : M Z :=
  modify_dev (set_img_dev imgdev_zero) ;;
  modify (set_enroll_stage 0) ;;
  modify_dev (set_nr_enroll_stages IMG_ENROLL_STAGES) ;;
  dev <- get_dev ;;
  match open (drv dev) with
  | Some f =>
      emit (DrvOpen driver_data) ;;
      let r := f driver_data in
      if negb (r =? 0) then ret r else ret 0
  | None =>
      emit (OpenComplete 0) ;;
      ret 0
  end.

Definition fpi_imgdev_session_error (error : Z) : M unit :=
  BUG_ON (error =? 0) ;;
  d <- get_imgdev ;;
  match action d with
  | IMG_ACTION_ENROLL => fpi_drvcb_enroll_stage_completed error None None
  | IMG_ACTION_VERIFY => fpi_drvcb_report_verify_result error None
  | IMG_ACTION_IDENTIFY => fpi_drvcb_report_identify_result error 0 None
  | IMG_ACTION_CAPTURE => fpi_drvcb_report_capture_result error None
  | IMG_ACTION_NONE => ret tt   (* default: fp_err("unhandled action") *)
  end.

Definition fpi_imgdev_activate_complete (status : Z) : M unit :=
  d <- get_imgdev ;;
  let started :=
    match action d with
    | IMG_ACTION_ENROLL => Some (EnrollStarted status)
    | IMG_ACTION_VERIFY => Some (VerifyStarted status)
    | IMG_ACTION_IDENTIFY => Some (IdentifyStarted status)
    | IMG_ACTION_CAPTURE => Some (CaptureStarted status)
    | IMG_ACTION_NONE => None
    end in
  match started with
  | None => ret tt   (* default: fp_err("unhandled action"); return *)
  | Some e =>
      emit e ;;
      if status =? 0 then
        modify (set_action_state IMG_ACQUIRE_STATE_AWAIT_FINGER_ON) ;;
        _ <- dev_change_state IMGDEV_STATE_AWAIT_FINGER_ON ;;
        ret tt
      else ret tt
  end.

Definition fpi_imgdev_deactivate_complete : M unit :=
  d <- get_imgdev ;;
  match action d with
  | IMG_ACTION_ENROLL => emit EnrollStopped
  | IMG_ACTION_VERIFY => emit VerifyStopped
  | IMG_ACTION_IDENTIFY => emit IdentifyStopped
  | IMG_ACTION_CAPTURE => emit CaptureStopped
  | IMG_ACTION_NONE => ret tt   (* default: fp_err("unhandled action") *)
  end ;;
  modify (set_action IMG_ACTION_NONE) ;;
  modify (set_action_state IMG_ACQUIRE_STATE_NONE).

Definition fpi_imgdev_get_img_width : M Z :=
  dev <- get_dev ;;
  let width := img_width (drv dev) in
  ret (if width =? -1 then 0 else width).

Definition fpi_imgdev_get_img_height : M Z :=
  dev <- get_dev ;;
  let height := img_height (drv dev) in
  ret (if height =? -1 then 0 else height).

Definition dev_activate (state : fp_imgdev_state) : M Z :=
  dev <- get_dev ;;
  match activate (drv dev) with
  | None => ret 0
  | Some f => emit (DrvActivate state) ;; ret (f state)
  end.

Definition dev_deactivate : M unit :=
  dev <- get_dev ;;
  match deactivate (drv dev) with
  | None => ret tt
  | Some _ => emit DrvDeactivate
  end.

Definition generic_acquire_start (action : fp_imgdev_action) : M Z :=
  modify (set_action action) ;;
  modify (set_action_state IMG_ACQUIRE_STATE_ACTIVATING) ;;
  modify (set_enroll_stage 0) ;;
  r <- dev_activate IMGDEV_STATE_AWAIT_FINGER_ON ;;
  ret r.

Definition generic_acquire_stop : M unit :=
  modify (set_action_state IMG_ACQUIRE_STATE_DEACTIVATING) ;;
  dev_deactivate ;;
  d <- get_imgdev ;;
  fp_print_data_free (acquire_data d) ;;
  fp_print_data_free (enroll_data d) ;;
  fp_img_free (acquire_img d) ;;
  modify (set_acquire_data None) ;;
  modify (set_enroll_data None) ;;
  modify (set_acquire_img None) ;;
  modify (set_action_result 0).

Definition img_dev_enroll_start : M Z :=
  generic_acquire_start IMG_ACTION_ENROLL.

Definition img_dev_verify_start : M Z :=
  generic_acquire_start IMG_ACTION_VERIFY.

Definition img_dev_identify_start : M Z :=
  generic_acquire_start IMG_ACTION_IDENTIFY.

Definition img_dev_capture_start : M Z :=
  dev <- get_dev ;;
  (* Unconditional capture is not supported yet *)
  if unconditional_capture dev then ret (- ENOTSUP)
  else generic_acquire_start IMG_ACTION_CAPTURE.

Definition img_dev_enroll_stop : M Z :=
  d <- get_imgdev ;;
  BUG_ON (negb (action_eqb (action d) IMG_ACTION_ENROLL)) ;;
  generic_acquire_stop ;;
  ret 0.

Definition img_dev_verify_stop (iterating : bool) : M Z :=
  d <- get_imgdev ;;
  BUG_ON (negb (action_eqb (action d) IMG_ACTION_VERIFY)) ;;
  generic_acquire_stop ;;
  ret 0.

Definition img_dev_identify_stop (iterating : bool) : M Z :=
  d <- get_imgdev ;;
  BUG_ON (negb (action_eqb (action d) IMG_ACTION_IDENTIFY)) ;;
  generic_acquire_stop ;;
  modify (set_identify_match_offset 0) ;;
  ret 0.

Definition img_dev_capture_stop : M Z :=
  d <- get_imgdev ;;
  BUG_ON (negb (action_eqb (action d) IMG_ACTION_CAPTURE)) ;;
  generic_acquire_stop ;;
  ret 0.

(** The stop entry of the running action, as [fpi_img_driver_setup] installs
    them ([enroll_stop], [verify_stop], [identify_stop], [capture_stop]);
    there is none for [IMG_ACTION_NONE]. *)
Definition img_dev_stop (a : fp_imgdev_action) (iterating : bool) : M Z :=
  match a with
  | IMG_ACTION_ENROLL => img_dev_enroll_stop
  | IMG_ACTION_VERIFY => img_dev_verify_stop iterating
  | IMG_ACTION_IDENTIFY => img_dev_identify_stop iterating
  | IMG_ACTION_CAPTURE => img_dev_capture_stop
  | IMG_ACTION_NONE => abort
  end.

(** ** Driver events *)

(** The driver-to-core calls of a running action. *)
Inductive driver_event : Type :=
| ReportFingerStatus (present : bool)
| ImageCaptured (img : fp_img)
| SessionError (error : Z)
| ActivateComplete (status : Z)
| DeactivateComplete.

Definition deliver (e : driver_event) : M unit :=
  match e with
  | ReportFingerStatus present => fpi_imgdev_report_finger_status present
  | ImageCaptured img => fpi_imgdev_image_captured img
  | SessionError error => fpi_imgdev_session_error error
  | ActivateComplete status => fpi_imgdev_activate_complete status
  | DeactivateComplete => fpi_imgdev_deactivate_complete
  end.

Fixpoint deliver_all (es : list driver_event) : M unit :=
  match es with
  | [] => ret tt
  | e :: es' => deliver e ;; deliver_all es'
  end.

(** ** Vocabulary of the statements *)

(** What [fpi_imgdev_image_captured] hands to the extraction and gets back:
    the sanitized, standardized image, on the device that already holds it
    as [acquire_img]. *)
Definition extraction_of (dev : fp_dev) (img : fp_img)
    : Z * option fp_print_data * fp_img :=
  let img1 := fp_img_standardize (snd (sanitize_image dev img)) in
  fpi_img_to_print_data
    (set_img_dev (set_acquire_img (Some img1) (img_dev dev)) dev) img1.




(** The world once [acquire_img] points to [img]. *)
Definition holding (img : fp_img) (w : world) : world :=
  {| w_dev := set_img_dev (set_acquire_img (Some img) (img_dev (w_dev w)))
                (w_dev w);
     w_log := w_log w |}.

(** The trace of [dev_change_state state] on [dev]. *)
Definition change_state_request (dev : fp_dev) (state : fp_imgdev_state)
    : list effect :=
  match change_state (drv dev) with
  | Some _ => [DrvChangeState state]
  | None => []
  end.

(** The trace of [dev_deactivate] on [dev]. *)
Definition deactivate_request (dev : fp_dev) : list effect :=
  match deactivate (drv dev) with
  | Some _ => [DrvDeactivate]
  | None => []
  end.

(** The releases of [generic_acquire_stop], in the order of the calls. *)
Definition stop_releases (d : fp_img_dev) : list effect :=
  match acquire_data d with Some p => [PrintDataFree p] | None => [] end
  ++ match enroll_data d with Some p => [PrintDataFree p] | None => [] end
  ++ match acquire_img d with Some i => [ImgFree i] | None => [] end.

(** The notification [fpi_imgdev_deactivate_complete] sends for an action. *)
Definition stopped_notification (a : fp_imgdev_action) : list effect :=
  match a with
  | IMG_ACTION_ENROLL => [EnrollStopped]
  | IMG_ACTION_VERIFY => [VerifyStopped]
  | IMG_ACTION_IDENTIFY => [IdentifyStopped]
  | IMG_ACTION_CAPTURE => [CaptureStopped]
  | IMG_ACTION_NONE => []
  end.

End ImgDev.

(** The front end that returns from the callback without calling the core.
    A statement that is about this front end only names it, or is a run at
    a concrete input; the others bind the front end and hold for all. *)
#[export] Instance front_end_passive : front_end :=
  {| enroll_stage_completed_cb := fun _ _ _ => ret tt |}.

(** ** Concrete surroundings for evaluation *)

(** The result codes as upstream fprint.h numbers them. *)
Definition fprint_h_upstream : fprint_h :=
  {| FP_ENROLL_COMPLETE := 1; FP_ENROLL_FAIL := 2; FP_ENROLL_PASS := 3;
     FP_ENROLL_RETRY := 100;
     FP_VERIFY_NO_MATCH := 0; FP_VERIFY_MATCH := 1;
     FP_CAPTURE_COMPLETE := 0 |}.

(** Test doubles for the collaborators.  An image is sane when its buffer
    holds width * height pixels; extraction fails on a blank frame and
    otherwise counts the non-zero pixels as minutiae and stores the buffer as
    the single item of the template; the comparison score is the first byte
    of the new template's item. *)
Definition double_is_sane (img : fp_img) : bool :=
  (0 <? width img) && (0 <? height img)
  && (width img * height img <=? Z.of_nat (List.length (data img))).

Definition double_to_print_data (dev : fp_dev) (img : fp_img)
    : Z * option fp_print_data * fp_img :=
  let n := Z.of_nat (List.length (filter (fun b => negb (b =? 0)) (data img))) in
  if n =? 0 then (-1, None, img)
  else
    (0,
     Some {| type := PRINT_DATA_NBIS_MINUTIAE;
             prints := [ {| length := Z.of_nat (List.length (data img));
                            item_data := data img |} ] |},
     {| width := width img; height := height img; data := data img;
        minutiae := Some {| num := n |} |}).

Definition double_score (p : option fp_print_data) : Z :=
  match p with
  | Some {| prints := {| item_data := b :: _ |} :: _ |} => b
  | _ => -1
  end.

Definition double_compare (enrolled new : option fp_print_data) : Z :=
  match enrolled with
  | Some _ => double_score new
  | None => -1
  end.

Fixpoint double_gallery (new : option fp_print_data)
    (gallery : list fp_print_data) (threshold : Z) (offset : Z) : Z * Z :=
  match gallery with
  | [] => (0, 0)
  | g :: rest =>
      if threshold <=? double_compare (Some g) new then (1, offset)
      else double_gallery new rest threshold (offset + 1)
  end.

Definition ext_double : collaborators :=
  {| fpi_img_is_sane := double_is_sane;
     fp_img_standardize := fun img => img;
     fpi_img_to_print_data := double_to_print_data;
     fpi_img_compare_print_data := double_compare;
     fpi_img_compare_print_data_to_gallery :=
       fun new gallery threshold => double_gallery new gallery threshold 0;
     fpi_print_data_new := fun _ => {| type := PRINT_DATA_RAW; prints := [] |};
     fpi_print_data_item_new :=
       fun len => {| length := len; item_data := repeat 0 (Z.to_nat len) |};
     sizeof_xyt_struct := 2404 |}.

Section Fixtures.

#[local] Existing Instance fprint_h_upstream.
#[local] Existing Instance ext_double.

(** Drivers: one with every callable and fixed 4x3 geometry, one with
    variable geometry and no callable, one with variable width and a fixed
    height of 100, one with a negative threshold. *)
Definition drv_full : fp_img_driver :=
  {| img_width := 4; img_height := 3; bz3_threshold := 0;
     change_state := Some (fun _ => 0); activate := Some (fun _ => 0);
     deactivate := Some tt; open := None |}.


Definition drv_tall : fp_img_driver :=
  {| img_width := 0; img_height := 100; bz3_threshold := 0;
     change_state := Some (fun _ => 0); activate := Some (fun _ => 0);
     deactivate := Some tt; open := None |}.

Definition drv_negative_threshold : fp_img_driver :=
  {| img_width := 4; img_height := 3; bz3_threshold := -5;
     change_state := Some (fun _ => 0); activate := Some (fun _ => 0);
     deactivate := Some tt; open := None |}.

(** A driver for sensors of variable size: it declares -1 for both. *)
Definition drv_variable : fp_img_driver :=
  {| img_width := -1; img_height := -1; bz3_threshold := 0;
     change_state := Some (fun _ => 0); activate := Some (fun _ => 0);
     deactivate := Some tt; open := None |}.

Definition tmpl_ref : fp_print_data :=
  {| type := PRINT_DATA_NBIS_MINUTIAE;
     prints := [ {| length := 2; item_data := [7; 7] |} ] |}.

Definition dev_blank (d : fp_img_driver) : fp_dev :=
  {| drv := d; nr_enroll_stages := 0; unconditional_capture := false;
     verify_data := Some tmpl_ref; identify_gallery := [tmpl_ref];
     img_dev := imgdev_zero |}.

(** A device in a given action and state, nothing in flight. *)
Definition dev_in (d : fp_img_driver) (a : fp_imgdev_action)
    (s : fp_imgdev_enroll_state) : fp_dev :=
  {| drv := d; nr_enroll_stages := IMG_ENROLL_STAGES;
     unconditional_capture := false;
     verify_data := Some tmpl_ref; identify_gallery := [tmpl_ref];
     img_dev := set_action a (set_action_state s imgdev_zero) |}.

Definition world_of (dev : fp_dev) : world := {| w_dev := dev; w_log := [] |}.

(** 4x3 images: twelve, nine and ten minutiae; images whose scores are -3,
    39 and 40; a blank one; one that declares no width. *)
Definition img_good : fp_img :=
  {| width := 0; height := 0; data := repeat 1 12; minutiae := None |}.

Definition img_nine : fp_img :=
  {| width := 4; height := 3; data := repeat 1 9 ++ repeat 0 3; minutiae := None |}.

Definition img_ten : fp_img :=
  {| width := 4; height := 3; data := repeat 1 10 ++ repeat 0 2; minutiae := None |}.

Definition img_score (score : Z) : fp_img :=
  {| width := 4; height := 3; data := score :: repeat 1 11; minutiae := None |}.

Definition img_blank : fp_img :=
  {| width := 4; height := 3; data := repeat 0 12; minutiae := None |}.

Definition img_flat : fp_img :=
  {| width := 0; height := 7; data := repeat 1 12; minutiae := None |}.

(** One finger cycle as the driver reports it. *)
Definition finger_cycle (img : fp_img) : list driver_event :=
  [ReportFingerStatus true; ImageCaptured img; ReportFingerStatus false].

(** The enroll scenario: open, start, activation, [n - 1] accepted cycles and
    the finger back on the sensor; then the image of cycle [n], the finger
    not yet lifted. *)
Definition enroll_before_image (n : nat) : M unit :=
  _ <- img_dev_open 0 ;;
  _ <- img_dev_enroll_start ;;
  deliver_all
    (ActivateComplete 0
     :: concat (repeat (finger_cycle img_good) (Nat.pred n))
     ++ [ReportFingerStatus true]).

Definition enroll_until_lift (n : nat) : M unit :=
  enroll_before_image n ;;
  fpi_imgdev_image_captured img_good.

(** The verify scenario up to the wait for the image. *)
Definition verify_before_image : M unit :=
  _ <- img_dev_open 0 ;;
  _ <- img_dev_verify_start ;;
  deliver_all [ActivateComplete 0; ReportFingerStatus true].

(** A front end that cancels the enrollment from inside the stage callback,
    on a driver that completes the deactivation before it returns. *)
Definition front_end_cancelling : front_end :=
  {| enroll_stage_completed_cb := fun _ _ _ =>
       _ <- img_dev_enroll_stop ;;
       fpi_imgdev_deactivate_complete |}.

End Fixtures.

(** ** Vocabulary of the further statements *)

(** The recheck after the stage callback, as a statement about the world
    [w2] the callback returned. *)
Definition rearmed_after_callback (w2 w' : world) : Prop :=
  (action (img_dev (w_dev w2)) = IMG_ACTION_ENROLL ->
   w_dev w' =
     set_img_dev
       (set_action_state IMG_ACQUIRE_STATE_AWAIT_FINGER_ON
          (set_action_result 0 (img_dev (w_dev w2)))) (w_dev w2)
   /\ w_log w' = w_log w2
        ++ change_state_request (w_dev w2) IMGDEV_STATE_AWAIT_FINGER_ON)
  /\ (action (img_dev (w_dev w2)) <> IMG_ACTION_ENROLL -> w' = w2).

(** A device between actions: no action, state 0, nothing in flight. *)
Definition idle (d : fp_img_dev) : Prop :=
  action d = IMG_ACTION_NONE
  /\ action_state d = IMG_ACQUIRE_STATE_NONE
  /\ acquire_img d = None
  /\ acquire_data d = None.

(** The trace of [dev_activate state] on [dev], and its return value. *)
Definition activate_request (dev : fp_dev) (state : fp_imgdev_state)
    : list effect :=
  match activate (drv dev) with
  | Some _ => [DrvActivate state]
  | None => []
  end.

Definition activate_code (dev : fp_dev) (state : fp_imgdev_state) : Z :=
  match activate (drv dev) with
  | Some f => f state
  | None => 0
  end.

(** The notification [fpi_imgdev_activate_complete] sends for an action. *)
Definition started_notification (a : fp_imgdev_action) (status : Z)
    : list effect :=
  match a with
  | IMG_ACTION_ENROLL => [EnrollStarted status]
  | IMG_ACTION_VERIFY => [VerifyStarted status]
  | IMG_ACTION_IDENTIFY => [IdentifyStarted status]
  | IMG_ACTION_CAPTURE => [CaptureStarted status]
  | IMG_ACTION_NONE => []
  end.

(** The notification [fpi_imgdev_session_error] sends for an action. *)
Definition error_notification (a : fp_imgdev_action) (error : Z)
    : list effect :=
  match a with
  | IMG_ACTION_ENROLL => [EnrollStageCompleted error None None]
  | IMG_ACTION_VERIFY => [ReportVerifyResult error None]
  | IMG_ACTION_IDENTIFY => [ReportIdentifyResult error 0 None]
  | IMG_ACTION_CAPTURE => [ReportCaptureResult error None]
  | IMG_ACTION_NONE => []
  end.

(** What the reporting code of [fpi_imgdev_report_finger_status] does to the
    outside for verify, identify and capture on device [d]: the result
    notification, then the release of the acquired template. *)
Definition result_report (d : fp_img_dev) : list effect :=
  match action d with
  | IMG_ACTION_VERIFY =>
      ReportVerifyResult (action_result d) (acquire_img d)
      :: match acquire_data d with Some p => [PrintDataFree p] | None => [] end
  | IMG_ACTION_IDENTIFY =>
      ReportIdentifyResult (action_result d) (identify_match_offset d)
        (acquire_img d)
      :: match acquire_data d with Some p => [PrintDataFree p] | None => [] end
  | IMG_ACTION_CAPTURE =>
      [ReportCaptureResult (action_result d) (acquire_img d)]
  | _ => []
  end.

(** ** Basic facts *)

Lemma state_eqb_eq (a b : fp_imgdev_enroll_state) :
  state_eqb a b = true <-> a = b.
Proof. destruct a, b; simpl; split; congruence. Qed.

Lemma state_eqb_neq (a b : fp_imgdev_enroll_state) :
  state_eqb a b = false <-> a <> b.
Proof. destruct a, b; simpl; split; congruence. Qed.

Lemma action_eqb_eq (a b : fp_imgdev_action) :
  action_eqb a b = true <-> a = b.
Proof. destruct a, b; simpl; split; congruence. Qed.

Lemma action_eqb_neq (a b : fp_imgdev_action) :
  action_eqb a b = false <-> a <> b.
Proof. destruct a, b; simpl; split; congruence. Qed.

Lemma wrap_int_id (z : Z) : INT_MIN <= z <= INT_MAX -> wrap_int z = z.
Proof.
  unfold wrap_int, INT_MIN, INT_MAX. intros H.
  rewrite Z.mod_small; lia.
Qed.

Lemma EINVAL_negative : - EINVAL < 0.
Proof. unfold EINVAL. lia. Qed.

#[global] Arguments next_state : simpl never.
#[global] Arguments decision_step : simpl never.
#[global] Arguments dev_change_state : simpl never.

(** Case analysis over the tests of [sanitize_image]. *)
Ltac sanitize_cases :=
  unfold sanitize_image; cbn zeta;
  repeat match goal with
         | |- context [if ?b then _ else _] =>
             let E := fresh "E" in destruct b eqn:E
         end;
  cbn [fst snd width height set_width set_height] in *;
  repeat match goal with
         | H : (_ <? _) = true |- _ => apply Z.ltb_lt in H
         | H : (_ <? _) = false |- _ => apply Z.ltb_ge in H
         | H : (_ <=? _) = true |- _ => apply Z.leb_le in H
         | H : (_ <=? _) = false |- _ => apply Z.leb_gt in H
         | H : negb _ = true |- _ => apply negb_true_iff in H
         | H : negb _ = false |- _ => apply negb_false_iff in H
         end.

Lemma if_same {A : Type} (b : bool) (x : A) : (if b then x else x) = x.
Proof. destruct b; reflexivity. Qed.

(** Unfolding of the monad and of the small operations. *)
Ltac unfold_monad :=
  unfold bind, ret, modify, modify_dev, emit, get_dev, get_imgdev, BUG_ON,
    abort, fp_img_free, fp_print_data_free, fp_dbg in *;
  rewrite ?if_same in *.

Ltac explode w :=
  let dev := fresh "dev" in
  let log := fresh "log" in
  let d := fresh "d" in
  destruct w as [dev log];
  destruct dev as [? ? ? ? ? d];
  destruct d;
  cbn [w_dev w_log img_dev drv nr_enroll_stages unconditional_capture
       verify_data identify_gallery action action_state action_result
       enroll_stage enroll_data acquire_img acquire_data
       identify_match_offset] in *.

(** ** Properties *)

(** [dev_change_state] leaves the device alone and appends its request. *)
Lemma dev_change_state_run (state : fp_imgdev_state) (w : world) :
  exists r, dev_change_state state w =
    Some (r, {| w_dev := w_dev w;
                w_log := w_log w ++ change_state_request (w_dev w) state |}).
Proof.
  unfold dev_change_state, change_state_request. unfold_monad.
  destruct w as [dev log]; cbn.
  destruct (change_state (drv dev)); cbn.
  - eauto.
  - rewrite app_nil_r. eauto.
Qed.

(** [next_state]: AwaitFingerOff and the request to the driver. *)
Lemma next_state_run (w : world) :
  next_state w =
    Some (tt, {| w_dev := set_img_dev
                   (set_action_state IMG_ACQUIRE_STATE_AWAIT_FINGER_OFF
                      (img_dev (w_dev w))) (w_dev w);
                 w_log := w_log w ++
                   change_state_request (w_dev w) IMGDEV_STATE_AWAIT_FINGER_OFF |}).
Proof.
  unfold next_state, dev_change_state, change_state_request. unfold_monad.
  destruct w as [dev log]; cbn.
  destruct (change_state (drv dev)); cbn.
  - reflexivity.
  - rewrite app_nil_r. reflexivity.
Qed.

(** The two early returns of [fpi_imgdev_image_captured]. *)
Lemma image_captured_returns_early `{codes : fprint_h} `{ext : collaborators}
    (img : fp_img) (w : world) :
  action_state (img_dev (w_dev w)) <> IMG_ACQUIRE_STATE_AWAIT_IMAGE
  \/ action_result (img_dev (w_dev w)) <> 0 ->
  fpi_imgdev_image_captured img w = Some (tt, w).
Proof.
  intros H. unfold fpi_imgdev_image_captured. unfold_monad.
  destruct (state_eqb (action_state (img_dev (w_dev w)))
              IMG_ACQUIRE_STATE_AWAIT_IMAGE) eqn:Hs; cbn; [|reflexivity].
  destruct (action_result (img_dev (w_dev w)) =? 0) eqn:Hr; cbn; [|reflexivity].
  apply state_eqb_eq in Hs. apply Z.eqb_eq in Hr. tauto.
Qed.

(** C6: an image-captured event outside AwaitImage is ignored, and one that
    arrives in AwaitImage with a result already set is dropped: the call
    returns at once, and the device (action_state, action_result,
    acquire_img, acquire_data and every other field) and the trace are what
    they were; the image is neither kept nor released. *)
Theorem image_captured_ignored `{codes : fprint_h} `{ext : collaborators}
    (img : fp_img) (w : world) :
  (action_state (img_dev (w_dev w)) <> IMG_ACQUIRE_STATE_AWAIT_IMAGE ->
   fpi_imgdev_image_captured img w = Some (tt, w))
  /\ (action_state (img_dev (w_dev w)) = IMG_ACQUIRE_STATE_AWAIT_IMAGE ->
      action_result (img_dev (w_dev w)) <> 0 ->
      fpi_imgdev_image_captured img w = Some (tt, w)).
Proof.
  split; intros; apply image_captured_returns_early; auto.
Qed.

(** C10: capture start on a device with unconditional_capture set returns
    -ENOTSUP and does nothing else: the device (action, action_state,
    enroll_stage included) and the trace are unchanged, so activate is not
    called. *)
Theorem capture_start_unconditional_unsupported (w : world) :
  unconditional_capture (w_dev w) = true ->
  img_dev_capture_start w = Some (- ENOTSUP, w).
Proof.
  intros H. unfold img_dev_capture_start. unfold_monad.
  rewrite H. reflexivity.
Qed.

(** C9: a stop request for the running action, in whatever action_state,
    sets action_state to Deactivating, calls the driver's deactivate (when it
    has one), releases the acquire template, the enroll accumulator and the
    in-flight image and clears the three fields, and resets action_result to
    0; nothing it does is a result notification.  The deactivation-complete
    that follows notifies the caller that this action stopped and leaves
    action None and action_state Inactive. *)
Theorem stop_then_deactivate_complete
    (a : fp_imgdev_action) (iterating : bool) (w : world) :
  a <> IMG_ACTION_NONE ->
  action (img_dev (w_dev w)) = a ->
  exists w1,
    img_dev_stop a iterating w = Some (0, w1)
    /\ action_state (img_dev (w_dev w1)) = IMG_ACQUIRE_STATE_DEACTIVATING
    /\ acquire_img (img_dev (w_dev w1)) = None
    /\ acquire_data (img_dev (w_dev w1)) = None
    /\ enroll_data (img_dev (w_dev w1)) = None
    /\ action_result (img_dev (w_dev w1)) = 0
    /\ w_log w1 = w_log w ++ deactivate_request (w_dev w)
                          ++ stop_releases (img_dev (w_dev w))
    /\ Forall (fun e => is_result_callback e = false)
         (deactivate_request (w_dev w) ++ stop_releases (img_dev (w_dev w)))
    /\ exists w2 e,
         fpi_imgdev_deactivate_complete w1 = Some (tt, w2)
         /\ stopped_notification a = [e]
         /\ w_log w2 = w_log w1 ++ [e]
         /\ action (img_dev (w_dev w2)) = IMG_ACTION_NONE
         /\ action_state (img_dev (w_dev w2)) = IMG_ACQUIRE_STATE_NONE.
Proof.
  intros Ha Hact. explode w. subst a.
  unfold img_dev_stop, img_dev_enroll_stop, img_dev_verify_stop,
    img_dev_identify_stop, img_dev_capture_stop, generic_acquire_stop,
    dev_deactivate, fpi_imgdev_deactivate_complete, deactivate_request,
    stop_releases.
  unfold_monad.
  destruct action0; try congruence;
    destruct drv0 as [? ? ? ? ? [[]|] ?];
    destruct acquire_data0, enroll_data0, acquire_img0;
    cbn; eexists; (split; [reflexivity|]); cbn;
    rewrite <- ?app_assoc, ?app_nil_r; cbn;
    (repeat (split; [reflexivity|]));
    (split; [repeat (apply Forall_cons; [reflexivity|]); apply Forall_nil|]);
    do 2 eexists; (split; [reflexivity|]); cbn;
    (split; [reflexivity|]); cbn;
    rewrite <- ?app_assoc, ?app_nil_r; cbn; auto.
Qed.

(** [sanitize_image] returns 0 or -EINVAL. *)
Lemma sanitize_image_codes `{ext : collaborators} (dev : fp_dev) (img : fp_img) :
  fst (sanitize_image dev img) = 0 \/ fst (sanitize_image dev img) = - EINVAL.
Proof.
  sanitize_cases; auto.
Qed.

(** The sanitation-failure path of [fpi_imgdev_image_captured]. *)
Lemma image_captured_sanitize_failed `{codes : fprint_h} `{ext : collaborators}
    (img : fp_img) (w : world) :
  action_state (img_dev (w_dev w)) = IMG_ACQUIRE_STATE_AWAIT_IMAGE ->
  action_result (img_dev (w_dev w)) = 0 ->
  fst (sanitize_image (w_dev w) img) < 0 ->
  fpi_imgdev_image_captured img w =
    Some (tt,
      {| w_dev := set_img_dev
           (set_action_state IMG_ACQUIRE_STATE_AWAIT_FINGER_OFF
              (set_action_result (fst (sanitize_image (w_dev w) img))
                 (img_dev (w_dev w)))) (w_dev w);
         w_log := w_log w
           ++ ImgFree (snd (sanitize_image (w_dev w) img))
           :: change_state_request (w_dev w) IMGDEV_STATE_AWAIT_FINGER_OFF |}).
Proof.
  intros Hs Hr Hf. unfold fpi_imgdev_image_captured. unfold_monad.
  rewrite Hs, Hr. cbn.
  destruct (sanitize_image (w_dev w) img) as [r img0]. cbn in *.
  apply Z.ltb_lt in Hf. rewrite Hf.
  rewrite next_state_run. cbn.
  rewrite <- app_assoc. reflexivity.
Qed.

(** C8 (amended): sanitation writes a driver-fixed positive width onto the
    image, and a driver-fixed positive height once the width check has
    passed; with a driver width (resp. height) that is not positive, a
    non-positive image width (resp. height) makes it fail, and so does the
    sanity predicate rejecting the image; it fails with -EINVAL only.  When
    it fails inside an image-captured event processed in AwaitImage,
    action_result becomes that negative code, the image is freed and not
    kept, and the machine moves to AwaitFingerOff. *)
Theorem sanitize_image_gate `{codes : fprint_h} `{ext : collaborators}
    (img : fp_img) (w : world) :
  let dev := w_dev w in
  let r := fst (sanitize_image dev img) in
  let img' := snd (sanitize_image dev img) in
  (0 < img_width (drv dev) -> width img' = img_width (drv dev))
  /\ (0 < img_height (drv dev) ->
      0 < img_width (drv dev) \/ 0 < width img ->
      height img' = img_height (drv dev))
  /\ (img_width (drv dev) <= 0 -> width img <= 0 -> r = - EINVAL)
  /\ (img_height (drv dev) <= 0 -> height img <= 0 -> r = - EINVAL)
  /\ (fpi_img_is_sane img' = false -> r = - EINVAL)
  /\ (r = 0 \/ r = - EINVAL)
  /\ (action_state (img_dev dev) = IMG_ACQUIRE_STATE_AWAIT_IMAGE ->
      action_result (img_dev dev) = 0 ->
      r < 0 ->
      exists w',
        fpi_imgdev_image_captured img w = Some (tt, w')
        /\ action_result (img_dev (w_dev w')) = - EINVAL
        /\ - EINVAL < 0
        /\ w_log w' = w_log w ++ ImgFree img'
                        :: change_state_request dev IMGDEV_STATE_AWAIT_FINGER_OFF
        /\ acquire_img (img_dev (w_dev w')) = acquire_img (img_dev dev)
        /\ acquire_data (img_dev (w_dev w')) = acquire_data (img_dev dev)
        /\ action_state (img_dev (w_dev w')) = IMG_ACQUIRE_STATE_AWAIT_FINGER_OFF).
Proof.
  intros dev r img'.
  assert (Hcodes : r = 0 \/ r = - EINVAL) by apply sanitize_image_codes.
  split; [|split; [|split; [|split; [|split; [|split]]]]].
  - subst img'. intros Hw. sanitize_cases; try reflexivity; lia.
  - subst img'. intros Hh Hw. sanitize_cases; try reflexivity; lia.
  - subst r. intros Hd Hi. sanitize_cases; try reflexivity; lia.
  - subst r. intros Hd Hi. sanitize_cases; try reflexivity; lia.
  - subst r img'. sanitize_cases; intros Hsane; try reflexivity; congruence.
  - exact Hcodes.
  - intros Hs Hr Hneg.
    eexists. split; [apply image_captured_sanitize_failed; assumption|].
    cbn. fold dev. fold r. fold img'.
    assert (Hr' : r = - EINVAL) by (destruct Hcodes; [lia|assumption]).
    repeat split; auto using EINVAL_negative.
Qed.

(** [fpi_imgdev_image_captured] past the sanitizer, for the actions that
    extract a template. *)
Lemma image_captured_extracting `{codes : fprint_h} `{ext : collaborators}
    (img : fp_img) (w : world) :
  action_state (img_dev (w_dev w)) = IMG_ACQUIRE_STATE_AWAIT_IMAGE ->
  action_result (img_dev (w_dev w)) = 0 ->
  0 <= fst (sanitize_image (w_dev w) img) ->
  action (img_dev (w_dev w)) <> IMG_ACTION_CAPTURE ->
  fpi_imgdev_image_captured img w =
    let '(r, print, img') := extraction_of (w_dev w) img in
    if r <? 0 then
      (modify (set_action_result FP_ENROLL_RETRY) ;; next_state) (holding img' w)
    else
      match minutiae img' with
      | None => None
      | Some m =>
          if num m <? MIN_ACCEPTABLE_MINUTIAE then
            (fp_print_data_free print ;;
             modify (set_action_result FP_ENROLL_RETRY) ;;
             next_state) (holding img' w)
          else (decision_step print ;; next_state) (holding img' w)
      end.
Proof.
  intros Hs Hr Hok Ha.
  unfold fpi_imgdev_image_captured, extraction_of, holding. unfold_monad.
  rewrite Hs, Hr. cbn.
  destruct (sanitize_image (w_dev w) img) as [r0 img0]. cbn in *.
  assert (E : (r0 <? 0) = false) by (apply Z.ltb_ge; assumption).
  rewrite E.
  apply action_eqb_neq in Ha. rewrite Ha. cbn.
  destruct (fpi_img_to_print_data _ _) as [[r print] img'].
  destruct (r <? 0); [reflexivity|].
  destruct (minutiae img') as [m|]; [|reflexivity].
  destruct (num m <? MIN_ACCEPTABLE_MINUTIAE); [|reflexivity].
  destruct print; reflexivity.
Qed.

(** The same for raw capture: no extraction, the decision step at once. *)
Lemma image_captured_capturing `{codes : fprint_h} `{ext : collaborators}
    (img : fp_img) (w : world) :
  action_state (img_dev (w_dev w)) = IMG_ACQUIRE_STATE_AWAIT_IMAGE ->
  action_result (img_dev (w_dev w)) = 0 ->
  0 <= fst (sanitize_image (w_dev w) img) ->
  action (img_dev (w_dev w)) = IMG_ACTION_CAPTURE ->
  fpi_imgdev_image_captured img w =
    (decision_step None ;; next_state)
      (holding (fp_img_standardize (snd (sanitize_image (w_dev w) img))) w).
Proof.
  intros Hs Hr Hok Ha.
  unfold fpi_imgdev_image_captured, holding. unfold_monad.
  rewrite Hs, Hr, Ha. cbn.
  destruct (sanitize_image (w_dev w) img) as [r0 img0]. cbn in *.
  assert (E : (r0 <? 0) = false) by (apply Z.ltb_ge; assumption).
  rewrite E. reflexivity.
Qed.

(** C7: in an image-captured cycle of an action other than capture, past the
    sanitizer: a failed extraction sets action_result to Retry; an extraction
    that succeeds with fewer than 10 minutiae (9, say) frees the template it
    produced, keeps none, and sets action_result to Retry; with 10 minutiae or
    more the template becomes acquire_data and the call is the decision step
    on it followed by the move to AwaitFingerOff. *)
Theorem minutiae_gate `{codes : fprint_h} `{ext : collaborators}
    (img : fp_img) (w : world)
    (r : Z) (print : option fp_print_data) (img' : fp_img) :
  action_state (img_dev (w_dev w)) = IMG_ACQUIRE_STATE_AWAIT_IMAGE ->
  action_result (img_dev (w_dev w)) = 0 ->
  action (img_dev (w_dev w)) <> IMG_ACTION_CAPTURE ->
  0 <= fst (sanitize_image (w_dev w) img) ->
  extraction_of (w_dev w) img = (r, print, img') ->
  (r < 0 ->
   exists w',
     fpi_imgdev_image_captured img w = Some (tt, w')
     /\ action_result (img_dev (w_dev w')) = FP_ENROLL_RETRY
     /\ acquire_data (img_dev (w_dev w')) = acquire_data (img_dev (w_dev w))
     /\ action_state (img_dev (w_dev w')) = IMG_ACQUIRE_STATE_AWAIT_FINGER_OFF)
  /\ (forall m, 0 <= r -> minutiae img' = Some m ->
      num m < MIN_ACCEPTABLE_MINUTIAE ->
      exists w',
        fpi_imgdev_image_captured img w = Some (tt, w')
        /\ action_result (img_dev (w_dev w')) = FP_ENROLL_RETRY
        /\ (forall p, print = Some p ->
            w_log w' = w_log w ++ PrintDataFree p
              :: change_state_request (w_dev w) IMGDEV_STATE_AWAIT_FINGER_OFF)
        /\ acquire_data (img_dev (w_dev w')) = acquire_data (img_dev (w_dev w))
        /\ enroll_data (img_dev (w_dev w')) = enroll_data (img_dev (w_dev w))
        /\ action_state (img_dev (w_dev w')) = IMG_ACQUIRE_STATE_AWAIT_FINGER_OFF)
  /\ (forall m, 0 <= r -> minutiae img' = Some m ->
      MIN_ACCEPTABLE_MINUTIAE <= num m ->
      fpi_imgdev_image_captured img w =
        (decision_step print ;; next_state) (holding img' w))
  /\ MIN_ACCEPTABLE_MINUTIAE = 10.
Proof.
  intros Hs Hr Ha Hok Hx.
  pose proof (image_captured_extracting img w Hs Hr Hok Ha) as E.
  rewrite Hx in E.
  repeat split.
  - intros Hneg. apply Z.ltb_lt in Hneg. rewrite Hneg in E.
    rewrite E. unfold_monad. cbn. rewrite next_state_run. cbn.
    eexists. split; [reflexivity|]. cbn. auto.
  - intros m Hpos Hm Hnum.
    assert (Hge : (r <? 0) = false) by (apply Z.ltb_ge; assumption).
    apply Z.ltb_lt in Hnum. rewrite Hge, Hm, Hnum in E.
    rewrite E. unfold_monad.
    destruct print as [p|]; cbn; rewrite next_state_run; cbn;
      (eexists; split; [reflexivity|]); cbn; repeat split; auto.
    + intros p0 Hp. inversion Hp; subst.
      rewrite <- app_assoc. reflexivity.
    + intros p0 Hp. discriminate.
  - intros m Hpos Hm Hnum.
    assert (Hge : (r <? 0) = false) by (apply Z.ltb_ge; assumption).
    apply Z.ltb_ge in Hnum. rewrite Hge, Hm, Hnum in E.
    exact E.
Qed.

(** C3 (amended): in a verify cycle whose template is accepted, with
    threshold the driver's bz3_threshold if non-zero and 40 otherwise, and s
    the comparison score: s >= threshold gives Match; 0 <= s < threshold
    gives NoMatch; s < 0 with s < threshold -- every negative score when the
    threshold is positive -- leaves the negative score itself in
    action_result. *)
Theorem verify_decision `{codes : fprint_h} `{ext : collaborators}
    (img : fp_img) (w : world)
    (r : Z) (print : option fp_print_data) (img' : fp_img) (m : fp_minutiae) :
  action_state (img_dev (w_dev w)) = IMG_ACQUIRE_STATE_AWAIT_IMAGE ->
  action_result (img_dev (w_dev w)) = 0 ->
  action (img_dev (w_dev w)) = IMG_ACTION_VERIFY ->
  0 <= fst (sanitize_image (w_dev w) img) ->
  extraction_of (w_dev w) img = (r, print, img') ->
  0 <= r ->
  minutiae img' = Some m ->
  MIN_ACCEPTABLE_MINUTIAE <= num m ->
  let threshold :=
    if bz3_threshold (drv (w_dev w)) =? 0 then 40
    else bz3_threshold (drv (w_dev w)) in
  let s := fpi_img_compare_print_data (verify_data (w_dev w)) print in
  exists w',
    fpi_imgdev_image_captured img w = Some (tt, w')
    /\ (threshold <= s ->
        action_result (img_dev (w_dev w')) = FP_VERIFY_MATCH)
    /\ (0 <= s < threshold ->
        action_result (img_dev (w_dev w')) = FP_VERIFY_NO_MATCH)
    /\ (s < 0 -> s < threshold ->
        action_result (img_dev (w_dev w')) = s)
    /\ (0 < threshold -> s < 0 ->
        action_result (img_dev (w_dev w')) = s).
Proof.
  intros Hs Hr Ha Hok Hx Hpos Hm Hnum threshold s.
  assert (Hnc : action (img_dev (w_dev w)) <> IMG_ACTION_CAPTURE)
    by (rewrite Ha; discriminate).
  rewrite (image_captured_extracting img w Hs Hr Hok Hnc), Hx, Hm.
  assert (Er : (r <? 0) = false) by (apply Z.ltb_ge; assumption).
  assert (En : (num m <? MIN_ACCEPTABLE_MINUTIAE) = false)
    by (apply Z.ltb_ge; assumption).
  rewrite Er, En.
  unfold decision_step, verify_process_img, holding, match_threshold.
  unfold_monad. cbn. rewrite Ha. cbn.
  rewrite next_state_run. cbn.
  eexists. split; [reflexivity|]. cbn.
  fold s. unfold BOZORTH3_DEFAULT_THRESHOLD. fold threshold.
  destruct (threshold <=? s) eqn:E1.
  - apply Z.leb_le in E1. repeat split; intros; try lia; reflexivity.
  - apply Z.leb_gt in E1.
    destruct (0 <=? s) eqn:E2.
    + apply Z.leb_le in E2. repeat split; intros; try lia; reflexivity.
    + apply Z.leb_gt in E2. repeat split; intros; try lia; reflexivity.
Qed.



(** An accepted enroll cycle: the item moves to the head of the accumulator,
    the stage count goes up by one, and the result is decided by the
    comparison with nr_enroll_stages. *)
Lemma enroll_cycle_accepted `{codes : fprint_h} `{ext : collaborators}
    (img : fp_img) (w : world)
    (r : Z) (p : fp_print_data) (img' : fp_img) (m : fp_minutiae)
    (item : fp_print_data_item) :
  action_state (img_dev (w_dev w)) = IMG_ACQUIRE_STATE_AWAIT_IMAGE ->
  action_result (img_dev (w_dev w)) = 0 ->
  action (img_dev (w_dev w)) = IMG_ACTION_ENROLL ->
  0 <= fst (sanitize_image (w_dev w) img) ->
  extraction_of (w_dev w) img = (r, Some p, img') ->
  0 <= r ->
  minutiae img' = Some m ->
  MIN_ACCEPTABLE_MINUTIAE <= num m ->
  prints p = [item] ->
  let d := img_dev (w_dev w) in
  let stage := wrap_int (enroll_stage d + 1) in
  let acc := match enroll_data d with
             | Some e => e
             | None =>
                 fpi_print_data_new
                   (set_img_dev
                      (set_acquire_data (Some p)
                         (set_acquire_img (Some img') d)) (w_dev w))
             end in
  fpi_imgdev_image_captured img w =
    Some (tt,
      {| w_dev := set_img_dev
           {| action := IMG_ACTION_ENROLL;
              action_state := IMG_ACQUIRE_STATE_AWAIT_FINGER_OFF;
              action_result :=
                if stage =? nr_enroll_stages (w_dev w)
                then FP_ENROLL_COMPLETE else FP_ENROLL_PASS;
              enroll_stage := stage;
              enroll_data := Some (set_prints (item :: prints acc) acc);
              acquire_img := Some img';
              acquire_data := None;
              identify_match_offset := identify_match_offset d |}
           (w_dev w);
         w_log := w_log w ++ PrintDataFree (set_prints [] p)
           :: change_state_request (w_dev w) IMGDEV_STATE_AWAIT_FINGER_OFF |}).
Proof.
  intros Hs Hr Ha Hok Hx Hpos Hm Hnum Hp d stage acc.
  assert (Hnc : action (img_dev (w_dev w)) <> IMG_ACTION_CAPTURE)
    by (rewrite Ha; discriminate).
  rewrite (image_captured_extracting img w Hs Hr Hok Hnc), Hx, Hm.
  assert (Er : (r <? 0) = false) by (apply Z.ltb_ge; assumption).
  assert (En : (num m <? MIN_ACCEPTABLE_MINUTIAE) = false)
    by (apply Z.ltb_ge; assumption).
  rewrite Er, En.
  subst d stage acc. clear Hx Hs Hr Hok Hnc.
  explode w. subst action0.
  unfold decision_step, enroll_process_img, holding, g_slist_length.
  unfold_monad. cbn. rewrite Hp. cbn.
  destruct (wrap_int (enroll_stage0 + 1) =? nr_enroll_stages0);
    rewrite next_state_run; cbn; rewrite <- app_assoc; reflexivity.
Qed.








(** C1 (what the code does): when a finger report reaches the reporting code
    of an enroll action whose result is EnrollComplete, the template handed
    to the enroll-stage callback is the one built at the top of the function,
    [fpi_print_data_new] plus one fresh item, whatever [enroll_data] has
    accumulated; the accumulator is dropped from the device without being
    passed on or freed. *)
Theorem enroll_complete_reports_fresh_print
    `{codes : fprint_h} `{ext : collaborators}
    (present : bool) (w : world) (acc : fp_print_data) :
  action (img_dev (w_dev w)) = IMG_ACTION_ENROLL ->
  action_result (img_dev (w_dev w)) = FP_ENROLL_COMPLETE ->
  enroll_data (img_dev (w_dev w)) = Some acc ->
  present = false
  \/ action_state (img_dev (w_dev w)) <> IMG_ACQUIRE_STATE_AWAIT_FINGER_ON ->
  let fresh :=
    {| type := PRINT_DATA_NBIS_MINUTIAE;
       prints := fpi_print_data_item_new sizeof_xyt_struct
                 :: prints (fpi_print_data_new (w_dev w)) |} in
  exists w',
    fpi_imgdev_report_finger_status (fe := front_end_passive) present w
      = Some (tt, w')
    /\ w_log w' = w_log w ++
         [EnrollStageCompleted FP_ENROLL_COMPLETE (Some fresh)
            (acquire_img (img_dev (w_dev w)))]
    /\ enroll_data (img_dev (w_dev w')) = None.
Proof.
  intros Ha Hr Hacc Hst fresh. subst fresh.
  assert (Hbr : present && state_eqb (action_state (img_dev (w_dev w)))
                             IMG_ACQUIRE_STATE_AWAIT_FINGER_ON = false).
  { destruct Hst as [->|Hst]; [reflexivity|].
    apply state_eqb_neq in Hst. rewrite Hst. apply andb_false_r. }
  unfold fpi_imgdev_report_finger_status, fpi_drvcb_enroll_stage_completed.
  unfold_monad. rewrite Hbr, Ha, Hr. cbn.
  rewrite Z.eqb_refl. cbn. rewrite andb_false_r. cbn.
  eexists. split; [reflexivity|]. cbn. auto.
Qed.

(** C2 (what the code does): a finger-present report that arrives in
    AwaitImage during an action is not a no-op: the call goes on to the
    reporting code, clears acquire_img and acquire_data, and issues the
    result notification of the action. *)
Theorem finger_present_in_await_image_reports
    `{codes : fprint_h} `{ext : collaborators} (w : world) :
  action_state (img_dev (w_dev w)) = IMG_ACQUIRE_STATE_AWAIT_IMAGE ->
  action (img_dev (w_dev w)) <> IMG_ACTION_NONE ->
  exists w' e rest,
    fpi_imgdev_report_finger_status (fe := front_end_passive) true w
      = Some (tt, w')
    /\ w_log w' = w_log w ++ e :: rest
    /\ is_result_callback e = true
    /\ acquire_img (img_dev (w_dev w')) = None
    /\ acquire_data (img_dev (w_dev w')) = None.
Proof.
  intros Hs Ha. explode w. subst action_state0.
  unfold fpi_imgdev_report_finger_status, fpi_drvcb_enroll_stage_completed,
    fpi_drvcb_report_verify_result, fpi_drvcb_report_identify_result,
    fpi_drvcb_report_capture_result.
  unfold_monad. cbn.
  destruct action0; try congruence; cbn.
  - destruct (action_result0 =? FP_ENROLL_COMPLETE); cbn;
      destruct ((0 <? action_result0) && _ && _); cbn;
      try match goal with
          | |- context [dev_change_state ?s ?w0] =>
              destruct (dev_change_state_run s w0) as [x Hx]; rewrite Hx
          end;
      cbn; do 3 eexists; (split; [reflexivity|]); cbn;
      rewrite <- ?app_assoc; cbn;
      (split; [reflexivity|]); auto.
  - destruct acquire_data0; cbn; do 3 eexists; (split; [reflexivity|]); cbn;
      rewrite <- ?app_assoc; cbn; (split; [reflexivity|]); auto.
  - destruct acquire_data0; cbn; do 3 eexists; (split; [reflexivity|]); cbn;
      rewrite <- ?app_assoc; cbn; (split; [reflexivity|]); auto.
  - do 3 eexists; (split; [reflexivity|]); cbn; (split; [reflexivity|]); auto.
Qed.

(** ** The theorems at concrete inputs *)

Section Evaluation.

#[local] Existing Instance fprint_h_upstream.
#[local] Existing Instance ext_double.

(** An image arriving in AwaitFingerOff, and one arriving in AwaitImage
    while a retry code is pending. *)
Lemma image_captured_ignored_witness :
  let w1 := world_of (dev_in drv_full IMG_ACTION_VERIFY
                        IMG_ACQUIRE_STATE_AWAIT_FINGER_OFF) in
  let w2 := {| w_dev := set_img_dev
                 (set_action_result 100
                    (img_dev (dev_in drv_full IMG_ACTION_VERIFY
                                IMG_ACQUIRE_STATE_AWAIT_IMAGE)))
                 (dev_in drv_full IMG_ACTION_VERIFY
                    IMG_ACQUIRE_STATE_AWAIT_IMAGE);
               w_log := [] |} in
  (action_state (img_dev (w_dev w1)) <> IMG_ACQUIRE_STATE_AWAIT_IMAGE
   /\ fpi_imgdev_image_captured img_good w1 = Some (tt, w1))
  /\ (action_state (img_dev (w_dev w2)) = IMG_ACQUIRE_STATE_AWAIT_IMAGE
      /\ action_result (img_dev (w_dev w2)) <> 0
      /\ fpi_imgdev_image_captured img_good w2 = Some (tt, w2)).
Proof.
  intros w1 w2.
  assert (H1 : action_state (img_dev (w_dev w1)) <> IMG_ACQUIRE_STATE_AWAIT_IMAGE)
    by (vm_compute; discriminate).
  assert (H2 : action_state (img_dev (w_dev w2)) = IMG_ACQUIRE_STATE_AWAIT_IMAGE)
    by reflexivity.
  assert (H3 : action_result (img_dev (w_dev w2)) <> 0)
    by (vm_compute; discriminate).
  split; [split|split; [|split]]; try assumption.
  - exact (proj1 (image_captured_ignored img_good w1) H1).
  - exact (proj2 (image_captured_ignored img_good w2) H2 H3).
Defined.

(** Capture start on a device that only captures unconditionally. *)
Lemma capture_start_unconditional_unsupported_witness :
  let dev := dev_blank drv_full in
  let w := world_of
    {| drv := drv dev; nr_enroll_stages := nr_enroll_stages dev;
       unconditional_capture := true; verify_data := verify_data dev;
       identify_gallery := identify_gallery dev; img_dev := img_dev dev |} in
  unconditional_capture (w_dev w) = true
  /\ img_dev_capture_start w = Some (-95, w).
Proof.
  intros dev w. split; [reflexivity|].
  exact (capture_start_unconditional_unsupported w eq_refl).
Defined.

(** Enroll stopped after the third accepted image, the finger still on the
    sensor. *)
Lemma stop_then_deactivate_complete_witness :
  exists w5 w6 w7,
    enroll_until_lift 3 (world_of (dev_blank drv_full)) = Some (tt, w5)
    /\ action_state (img_dev (w_dev w5)) = IMG_ACQUIRE_STATE_AWAIT_FINGER_OFF
    /\ img_dev_stop IMG_ACTION_ENROLL false w5 = Some (0, w6)
    /\ img_dev (w_dev w6) =
         {| action := IMG_ACTION_ENROLL;
            action_state := IMG_ACQUIRE_STATE_DEACTIVATING;
            action_result := 0; enroll_stage := 3; enroll_data := None;
            acquire_img := None; acquire_data := None;
            identify_match_offset := 0 |}
    /\ Forall (fun e => is_result_callback e = false)
         (skipn (List.length (w_log w5)) (w_log w6))
    /\ fpi_imgdev_deactivate_complete w6 = Some (tt, w7)
    /\ w_log w7 = w_log w6 ++ [EnrollStopped]
    /\ action (img_dev (w_dev w7)) = IMG_ACTION_NONE
    /\ action_state (img_dev (w_dev w7)) = IMG_ACQUIRE_STATE_NONE.
Proof.
  destruct (enroll_until_lift 3 (world_of (dev_blank drv_full)))
    as [[[] w5]|] eqn:E5; [|vm_compute in E5; discriminate].
  assert (Ha : action (img_dev (w_dev w5)) = IMG_ACTION_ENROLL).
  { vm_compute in E5. inversion E5. reflexivity. }
  destruct (stop_then_deactivate_complete IMG_ACTION_ENROLL false w5
              ltac:(discriminate) Ha)
    as (w6 & E6 & Hst & Himg & Hdata & Hacc & Hres & Hlog & Hnocb
        & w7 & e & E7 & Hn & Hlog7 & Ha7 & Hs7).
  exists w5, w6, w7.
  vm_compute in E5. inversion E5; subst w5; clear E5.
  vm_compute in E6. inversion E6; subst w6; clear E6.
  vm_compute in E7. inversion E7; subst w7; clear E7.
  repeat split; try reflexivity.
  vm_compute. repeat constructor.
Defined.

(** A driver with variable width and fixed height 100, an image that
    declares no width: sanitation fails on the width and the height 7 of the
    image is still there when the image is freed. *)
Lemma sanitize_image_height_not_written :
  let dev := dev_in drv_tall IMG_ACTION_CAPTURE IMG_ACQUIRE_STATE_AWAIT_IMAGE in
  0 < img_height (drv dev)
  /\ sanitize_image dev img_flat = (-22, img_flat)
  /\ height (snd (sanitize_image dev img_flat)) = 7
  /\ height (snd (sanitize_image dev img_flat)) <> img_height (drv dev)
  /\ exists w',
       fpi_imgdev_image_captured img_flat (world_of dev) = Some (tt, w')
       /\ w_log w' = [ImgFree img_flat;
                      DrvChangeState IMGDEV_STATE_AWAIT_FINGER_OFF].
Proof.
  intros dev. split; [reflexivity|].
  split; [reflexivity|]. split; [reflexivity|].
  split; [vm_compute; discriminate|].
  eexists. split; vm_compute; reflexivity.
Defined.

(** A three-pixel buffer on the fixed 4x3 driver: both dimensions are
    written, the sanity predicate rejects it, the cycle ends with -EINVAL. *)
Lemma sanitize_image_gate_witness :
  let w := world_of (dev_in drv_full IMG_ACTION_VERIFY
                       IMG_ACQUIRE_STATE_AWAIT_IMAGE) in
  let runt := {| width := 9; height := 9; data := [1; 1; 1]; minutiae := None |} in
  (0 < img_width (drv (w_dev w)) /\ 0 < img_height (drv (w_dev w)))
  /\ width (snd (sanitize_image (w_dev w) runt)) = 4
  /\ height (snd (sanitize_image (w_dev w) runt)) = 3
  /\ fpi_img_is_sane (snd (sanitize_image (w_dev w) runt)) = false
  /\ fst (sanitize_image (w_dev w) runt) = -22
  /\ exists w',
       fpi_imgdev_image_captured runt w = Some (tt, w')
       /\ action_result (img_dev (w_dev w')) = -22
       /\ w_log w' = [ImgFree (snd (sanitize_image (w_dev w) runt));
                      DrvChangeState IMGDEV_STATE_AWAIT_FINGER_OFF]
       /\ acquire_img (img_dev (w_dev w')) = None
       /\ action_state (img_dev (w_dev w')) = IMG_ACQUIRE_STATE_AWAIT_FINGER_OFF.
Proof.
  intros w runt.
  destruct (sanitize_image_gate runt w)
    as (Hw & Hh & _ & _ & Hsane & _ & Hfail).
  assert (Hdw : 0 < img_width (drv (w_dev w))) by reflexivity.
  assert (Hdh : 0 < img_height (drv (w_dev w))) by reflexivity.
  assert (Hns : fpi_img_is_sane (snd (sanitize_image (w_dev w) runt)) = false)
    by reflexivity.
  split; [split; assumption|].
  split; [exact (Hw Hdw)|].
  split; [exact (Hh Hdh (or_introl Hdw))|].
  split; [exact Hns|].
  split; [exact (Hsane Hns)|].
  destruct (Hfail eq_refl eq_refl ltac:(reflexivity))
    as (w' & E & Hres & _ & Hlog & Himg & _ & Hst).
  exists w'. repeat split; assumption.
Defined.

(** A driver that declares the threshold -5 and a comparison score of -3:
    the negative score is reported as a match. *)
Lemma verify_negative_score_matches :
  let w := world_of (dev_in drv_negative_threshold IMG_ACTION_VERIFY
                       IMG_ACQUIRE_STATE_AWAIT_IMAGE) in
  exists print img' w',
    extraction_of (w_dev w) (img_score (-3)) = (0, print, img')
    /\ bz3_threshold (drv (w_dev w)) = -5
    /\ fpi_img_compare_print_data (verify_data (w_dev w)) print = -3
    /\ fpi_imgdev_image_captured (img_score (-3)) w = Some (tt, w')
    /\ action_result (img_dev (w_dev w')) = FP_VERIFY_MATCH
    /\ action_result (img_dev (w_dev w')) <> -3.
Proof.
  intros w. do 3 eexists.
  split; [vm_compute; reflexivity|].
  split; [reflexivity|].
  split; [reflexivity|].
  split; [vm_compute; reflexivity|].
  split; [reflexivity|].
  vm_compute. discriminate.
Defined.

(** Default threshold 40: scores 40, 39 and -3. *)
Lemma verify_decision_witness :
  let w := world_of (dev_in drv_full IMG_ACTION_VERIFY
                       IMG_ACQUIRE_STATE_AWAIT_IMAGE) in
  bz3_threshold (drv (w_dev w)) = 0
  /\ (exists w', fpi_imgdev_image_captured (img_score 40) w = Some (tt, w')
                 /\ action_result (img_dev (w_dev w')) = FP_VERIFY_MATCH)
  /\ (exists w', fpi_imgdev_image_captured (img_score 39) w = Some (tt, w')
                 /\ action_result (img_dev (w_dev w')) = FP_VERIFY_NO_MATCH)
  /\ (exists w', fpi_imgdev_image_captured (img_score (-3)) w = Some (tt, w')
                 /\ action_result (img_dev (w_dev w')) = -3).
Proof.
  intros w. split; [reflexivity|].
  split; [|split].
  - edestruct (verify_decision (img_score 40) w)
      as (w' & E & Hmatch & _ & _ & _);
      [reflexivity | reflexivity | reflexivity
      | vm_compute; discriminate
      | vm_compute; reflexivity
      | vm_compute; discriminate
      | reflexivity
      | vm_compute; discriminate |].
    exists w'. split; [exact E|].
    apply Hmatch. vm_compute. discriminate.
  - edestruct (verify_decision (img_score 39) w)
      as (w' & E & _ & Hno & _ & _);
      [reflexivity | reflexivity | reflexivity
      | vm_compute; discriminate
      | vm_compute; reflexivity
      | vm_compute; discriminate
      | reflexivity
      | vm_compute; discriminate |].
    exists w'. split; [exact E|].
    apply Hno. vm_compute. split; [discriminate|reflexivity].
  - edestruct (verify_decision (img_score (-3)) w)
      as (w' & E & _ & _ & _ & Hneg);
      [reflexivity | reflexivity | reflexivity
      | vm_compute; discriminate
      | vm_compute; reflexivity
      | vm_compute; discriminate
      | reflexivity
      | vm_compute; discriminate |].
    exists w'. split; [exact E|].
    apply Hneg; vm_compute; reflexivity.
Defined.



(** A blank frame (extraction fails), nine minutiae, ten minutiae. *)
Lemma minutiae_gate_witness :
  let w := world_of (dev_in drv_full IMG_ACTION_VERIFY
                       IMG_ACQUIRE_STATE_AWAIT_IMAGE) in
  action (img_dev (w_dev w)) <> IMG_ACTION_CAPTURE
  /\ (exists w',
        fst (fst (extraction_of (w_dev w) img_blank)) < 0
        /\ fpi_imgdev_image_captured img_blank w = Some (tt, w')
        /\ action_result (img_dev (w_dev w')) = FP_ENROLL_RETRY)
  /\ (exists p w',
        snd (fst (extraction_of (w_dev w) img_nine)) = Some p
        /\ minutiae (snd (extraction_of (w_dev w) img_nine))
             = Some {| num := 9 |}
        /\ fpi_imgdev_image_captured img_nine w = Some (tt, w')
        /\ action_result (img_dev (w_dev w')) = FP_ENROLL_RETRY
        /\ w_log w' = [PrintDataFree p;
                       DrvChangeState IMGDEV_STATE_AWAIT_FINGER_OFF]
        /\ acquire_data (img_dev (w_dev w')) = None)
  /\ (exists p img',
        extraction_of (w_dev w) img_ten = (0, Some p, img')
        /\ minutiae img' = Some {| num := 10 |}
        /\ fpi_imgdev_image_captured img_ten w =
             (decision_step (Some p) ;; next_state) (holding img' w)).
Proof.
  intros w.
  assert (Ha : action (img_dev (w_dev w)) <> IMG_ACTION_CAPTURE)
    by (vm_compute; discriminate).
  split; [exact Ha|].
  split; [|split].
  - edestruct (minutiae_gate img_blank w) as (Hfail & _);
      [reflexivity | reflexivity | exact Ha
      | vm_compute; discriminate
      | vm_compute; reflexivity |].
    destruct (Hfail ltac:(reflexivity)) as (w' & E & Hres & _).
    exists w'. split; [reflexivity|]. split; assumption.
  - edestruct (minutiae_gate img_nine w) as (_ & Hfew & _);
      [reflexivity | reflexivity | exact Ha
      | vm_compute; discriminate
      | vm_compute; reflexivity |].
    destruct (Hfew {| num := 9 |} ltac:(vm_compute; discriminate) eq_refl
                ltac:(reflexivity))
      as (w' & E & Hres & Hlog & Hdata & _).
    eexists. exists w'.
    split; [vm_compute; reflexivity|].
    split; [reflexivity|].
    split; [exact E|]. split; [exact Hres|].
    split; [exact (Hlog _ eq_refl)|exact Hdata].
  - edestruct (minutiae_gate img_ten w) as (_ & _ & Hacc & _);
      [reflexivity | reflexivity | exact Ha
      | vm_compute; discriminate
      | vm_compute; reflexivity |].
    do 2 eexists.
    split; [vm_compute; reflexivity|].
    split; [reflexivity|].
    exact (Hacc {| num := 10 |} ltac:(vm_compute; discriminate) eq_refl
             ltac:(vm_compute; discriminate)).
Defined.





(** The fifth finger lift of the enroll scenario: five items accumulated,
    a one-item template reported, the accumulator gone. *)
Lemma enroll_complete_reports_fresh_print_witness :
  exists w5 acc w6 tmpl,
    enroll_until_lift 5 (world_of (dev_blank drv_full)) = Some (tt, w5)
    /\ action (img_dev (w_dev w5)) = IMG_ACTION_ENROLL
    /\ action_result (img_dev (w_dev w5)) = FP_ENROLL_COMPLETE
    /\ enroll_stage (img_dev (w_dev w5)) = nr_enroll_stages (w_dev w5)
    /\ enroll_data (img_dev (w_dev w5)) = Some acc
    /\ List.length (prints acc) = 5%nat
    /\ fpi_imgdev_report_finger_status false w5 = Some (tt, w6)
    /\ w_log w6 = w_log w5 ++
         [EnrollStageCompleted FP_ENROLL_COMPLETE (Some tmpl)
            (acquire_img (img_dev (w_dev w5)))]
    /\ List.length (prints tmpl) = 1%nat
    /\ tmpl <> acc
    /\ enroll_data (img_dev (w_dev w6)) = None
    /\ ~ In (PrintDataFree acc) (w_log w6).
Proof.
  destruct (enroll_until_lift 5 (world_of (dev_blank drv_full)))
    as [[[] w5]|] eqn:E5; [|vm_compute in E5; discriminate].
  destruct (enroll_data (img_dev (w_dev w5))) as [acc|] eqn:Eacc.
  2: { vm_compute in E5. inversion E5; subst w5. discriminate Eacc. }
  edestruct (enroll_complete_reports_fresh_print false w5 acc)
    as (w6 & E6 & Hlog & Hnone);
    [ vm_compute in E5; inversion E5; reflexivity
    | vm_compute in E5; inversion E5; reflexivity
    | exact Eacc
    | left; reflexivity |].
  exists w5, acc, w6. eexists.
  split; [reflexivity|].
  split; [vm_compute in E5; inversion E5; reflexivity|].
  split; [vm_compute in E5; inversion E5; reflexivity|].
  split; [vm_compute in E5; inversion E5; reflexivity|].
  split; [exact Eacc|].
  split; [vm_compute in E5; inversion E5; subst w5;
          vm_compute in Eacc; inversion Eacc; reflexivity|].
  split; [exact E6|].
  split; [exact Hlog|].
  split; [vm_compute in E5; inversion E5; reflexivity|].
  split; [vm_compute in E5; inversion E5; subst w5;
          vm_compute in Eacc; inversion Eacc; subst acc;
          intros H; discriminate H|].
  split; [exact Hnone|].
  rewrite Hlog.
  vm_compute in E5; inversion E5; subst w5.
  vm_compute in Eacc; inversion Eacc; subst acc.
  vm_compute. intros H.
  repeat (destruct H as [H|H]; [discriminate H|]). exact H.
Defined.

(** Verify, waiting for the image, and the finger reported present again. *)
Lemma finger_present_in_await_image_reports_witness :
  exists w w',
    verify_before_image (world_of (dev_blank drv_full)) = Some (tt, w)
    /\ action_state (img_dev (w_dev w)) = IMG_ACQUIRE_STATE_AWAIT_IMAGE
    /\ action_result (img_dev (w_dev w)) = 0
    /\ action (img_dev (w_dev w)) = IMG_ACTION_VERIFY
    /\ fpi_imgdev_report_finger_status true w = Some (tt, w')
    /\ w_log w' = w_log w ++ [ReportVerifyResult 0 None]
    /\ action_state (img_dev (w_dev w')) = IMG_ACQUIRE_STATE_AWAIT_IMAGE.
Proof.
  destruct (verify_before_image (world_of (dev_blank drv_full)))
    as [[[] w]|] eqn:E; [|vm_compute in E; discriminate].
  edestruct (finger_present_in_await_image_reports w)
    as (w' & e & rest & E' & Hlog & Hcb & _);
    [ vm_compute in E; inversion E; reflexivity
    | vm_compute in E; inversion E; discriminate |].
  exists w, w'.
  split; [reflexivity|].
  split; [vm_compute in E; inversion E; reflexivity|].
  split; [vm_compute in E; inversion E; reflexivity|].
  split; [vm_compute in E; inversion E; reflexivity|].
  split; [exact E'|].
  vm_compute in E; inversion E; subst w.
  vm_compute in E'. inversion E'; subst w'.
  split; reflexivity.
Defined.

End Evaluation.

(** ** Further properties: events outside a finger cycle *)

(** One event on an idle device. *)
Lemma deliver_idle
    `{codes : fprint_h} `{ext : collaborators} `{fe : front_end}
    (e : driver_event) (w : world) :
  idle (img_dev (w_dev w)) ->
  e <> SessionError 0 ->
  deliver e w = Some (tt, w).
Proof.
  intros (Ha & Hs & Hi & Hd) He. explode w. subst.
  destruct e as [present|img|error|status|]; cbn [deliver].
  - unfold fpi_imgdev_report_finger_status. unfold_monad. cbn.
    rewrite andb_false_r. reflexivity.
  - apply image_captured_returns_early. left. cbn. discriminate.
  - unfold fpi_imgdev_session_error. unfold_monad. cbn.
    destruct (error =? 0) eqn:E; [|reflexivity].
    apply Z.eqb_eq in E. subst. congruence.
  - reflexivity.
  - reflexivity.
Qed.

(** X1: a device between actions (no action, state 0, nothing in flight)
    ignores whatever the driver reports: finger status, images, activation
    and deactivation completions and non-zero session errors leave the device
    record as it is and notify nobody. *)
Theorem idle_device_ignores_events
    `{codes : fprint_h} `{ext : collaborators} `{fe : front_end}
    (es : list driver_event) (w : world) :
  idle (img_dev (w_dev w)) ->
  Forall (fun e => e <> SessionError 0) es ->
  deliver_all es w = Some (tt, w).
Proof.
  intros Hidle Hes. induction Hes as [|e es He Hes IH].
  - reflexivity.
  - cbn [deliver_all]. unfold bind.
    rewrite (deliver_idle e w Hidle He). exact IH.
Qed.

(** X2: a session error reported during an action issues the one result
    notification of that action, carrying the error code and neither image
    nor template (and offset 0 for identify); the device record, action_state
    included, is untouched, so the action still has to be stopped. *)
Theorem session_error_notifies_only `{codes : fprint_h} `{ext : collaborators}
    (error : Z) (w : world) :
  error <> 0 ->
  fpi_imgdev_session_error (fe := front_end_passive) error w =
    Some (tt, {| w_dev := w_dev w;
                 w_log := w_log w ++
                   error_notification (action (img_dev (w_dev w))) error |})
  /\ Forall (fun e => is_result_callback e = true)
       (error_notification (action (img_dev (w_dev w))) error)
  /\ (action (img_dev (w_dev w)) <> IMG_ACTION_NONE ->
      List.length (error_notification (action (img_dev (w_dev w))) error)
      = 1%nat).
Proof.
  intros He. apply Z.eqb_neq in He.
  unfold fpi_imgdev_session_error, error_notification,
    fpi_drvcb_enroll_stage_completed, fpi_drvcb_report_verify_result,
    fpi_drvcb_report_identify_result, fpi_drvcb_report_capture_result.
  unfold_monad. rewrite He. cbn.
  destruct (action (img_dev (w_dev w))); cbn;
    rewrite ?app_nil_r; repeat split; try congruence;
    try (destruct w; reflexivity);
    repeat constructor.
Qed.

(** [fpi_imgdev_activate_complete] on a running action. *)
Lemma activate_complete_run (status : Z) (w : world) :
  action (img_dev (w_dev w)) <> IMG_ACTION_NONE ->
  fpi_imgdev_activate_complete status w =
    Some (tt,
      if status =? 0 then
        {| w_dev := set_img_dev
             (set_action_state IMG_ACQUIRE_STATE_AWAIT_FINGER_ON
                (img_dev (w_dev w))) (w_dev w);
           w_log := w_log w
             ++ started_notification (action (img_dev (w_dev w))) status
             ++ change_state_request (w_dev w) IMGDEV_STATE_AWAIT_FINGER_ON |}
      else
        {| w_dev := w_dev w;
           w_log := w_log w
             ++ started_notification (action (img_dev (w_dev w))) status |}).
Proof.
  intros Ha. explode w.
  unfold fpi_imgdev_activate_complete, dev_change_state, change_state_request.
  unfold_monad. cbn.
  destruct action0; try congruence; cbn;
    destruct (status =? 0); cbn; try reflexivity;
    destruct drv0 as [? ? ? [f|] ? ? ?]; cbn;
    rewrite <- ?app_assoc, ?app_nil_r; reflexivity.
Qed.

(** X3: activation-complete with a failure status tells the caller that the
    action started with that status and changes nothing in the device: the
    machine stays where the start left it and the driver is asked nothing;
    with status 0 it moves to AwaitFingerOn and asks the driver for that
    state; with no action running it does nothing at all. *)
Theorem activate_complete_outcomes (status : Z) (w : world) :
  (action (img_dev (w_dev w)) <> IMG_ACTION_NONE ->
   status <> 0 ->
   fpi_imgdev_activate_complete status w =
     Some (tt, {| w_dev := w_dev w;
                  w_log := w_log w ++
                    started_notification (action (img_dev (w_dev w))) status |}))
  /\ (action (img_dev (w_dev w)) <> IMG_ACTION_NONE ->
      status = 0 ->
      exists w',
        fpi_imgdev_activate_complete status w = Some (tt, w')
        /\ img_dev (w_dev w') =
             set_action_state IMG_ACQUIRE_STATE_AWAIT_FINGER_ON
               (img_dev (w_dev w))
        /\ w_log w' = w_log w
             ++ started_notification (action (img_dev (w_dev w))) 0
             ++ change_state_request (w_dev w) IMGDEV_STATE_AWAIT_FINGER_ON)
  /\ (action (img_dev (w_dev w)) = IMG_ACTION_NONE ->
      fpi_imgdev_activate_complete status w = Some (tt, w)).
Proof.
  split; [|split].
  - intros Ha Hs. rewrite (activate_complete_run status w Ha).
    apply Z.eqb_neq in Hs. rewrite Hs. reflexivity.
  - intros Ha Hs. subst status. rewrite (activate_complete_run 0 w Ha).
    cbn. eexists. split; [reflexivity|]. cbn. auto.
  - intros Ha. unfold fpi_imgdev_activate_complete. unfold_monad.
    rewrite Ha. reflexivity.
Qed.

(** X4: start, activation-complete with status 0 and the first finger-present
    report, whatever the start returned, bring the machine to AwaitImage for
    the new action with enroll_stage 0: the driver is asked, in this order,
    to activate, for AwaitFingerOn and for Capture, and the caller is told
    once that the action started.  The start clears neither action_result nor
    the enroll accumulator nor what is in flight. *)
Theorem start_arms_for_image
    `{codes : fprint_h} `{ext : collaborators} `{fe : front_end}
    (a : fp_imgdev_action) (w : world) :
  a <> IMG_ACTION_NONE ->
  exists w',
    (generic_acquire_start a ;;
     fpi_imgdev_activate_complete 0 ;;
     fpi_imgdev_report_finger_status true) w = Some (tt, w')
    /\ img_dev (w_dev w') =
         set_action_state IMG_ACQUIRE_STATE_AWAIT_IMAGE
           (set_enroll_stage 0 (set_action a (img_dev (w_dev w))))
    /\ w_log w' = w_log w
         ++ activate_request (w_dev w) IMGDEV_STATE_AWAIT_FINGER_ON
         ++ started_notification a 0
         ++ change_state_request (w_dev w) IMGDEV_STATE_AWAIT_FINGER_ON
         ++ change_state_request (w_dev w) IMGDEV_STATE_CAPTURE.
Proof.
  intros Ha. explode w.
  unfold generic_acquire_start, dev_activate, fpi_imgdev_activate_complete,
    fpi_imgdev_report_finger_status, dev_change_state, activate_request,
    change_state_request.
  unfold_monad. cbn.
  destruct a; try congruence;
    destruct drv0 as [? ? ? [f|] [g|] ? ?]; cbn;
    (eexists; split; [reflexivity|]); cbn;
    rewrite <- ?app_assoc, ?app_nil_r; cbn; split; reflexivity.
Qed.

(** The reporting code of [fpi_imgdev_report_finger_status] for verify,
    identify and capture. *)
Lemma report_result_run
    `{codes : fprint_h} `{ext : collaborators} `{fe : front_end}
    (present : bool) (w : world) :
  action (img_dev (w_dev w)) <> IMG_ACTION_ENROLL ->
  action (img_dev (w_dev w)) <> IMG_ACTION_NONE ->
  present && state_eqb (action_state (img_dev (w_dev w)))
               IMG_ACQUIRE_STATE_AWAIT_FINGER_ON = false ->
  fpi_imgdev_report_finger_status present w =
    Some (tt,
      {| w_dev := set_img_dev
           (set_action_result 0
              (set_acquire_data None
                 (set_acquire_img None (img_dev (w_dev w))))) (w_dev w);
         w_log := w_log w ++ result_report (img_dev (w_dev w)) |}).
Proof.
  intros He Hn Hbr. explode w.
  unfold fpi_imgdev_report_finger_status, result_report,
    fpi_drvcb_report_verify_result, fpi_drvcb_report_identify_result,
    fpi_drvcb_report_capture_result.
  unfold_monad.
  destruct present, action_state0; cbn in Hbr; try discriminate Hbr;
    destruct action0; try congruence; cbn;
    try destruct acquire_data0; cbn; unfold emit; cbn;
    rewrite <- ?app_assoc; reflexivity.
Qed.

(** X5: when a finger report reaches the reporting code during verify,
    identify or capture (any report but finger-present in AwaitFingerOn), the
    caller gets the result notification of the action with the current
    action_result and the image in flight (and the match offset for
    identify); the acquired template is freed for verify and identify;
    action_result is reset to 0 and both in-flight fields are cleared.  The
    machine is not re-armed: action_state, like every other field, stays. *)
Theorem finger_report_delivers_result
    `{codes : fprint_h} `{ext : collaborators} `{fe : front_end}
    (present : bool) (w : world) :
  action (img_dev (w_dev w)) <> IMG_ACTION_ENROLL ->
  action (img_dev (w_dev w)) <> IMG_ACTION_NONE ->
  present = false
  \/ action_state (img_dev (w_dev w)) <> IMG_ACQUIRE_STATE_AWAIT_FINGER_ON ->
  exists w',
    fpi_imgdev_report_finger_status present w = Some (tt, w')
    /\ w_log w' = w_log w ++ result_report (img_dev (w_dev w))
    /\ (exists e rest,
          result_report (img_dev (w_dev w)) = e :: rest
          /\ is_result_callback e = true
          /\ Forall (fun x => is_result_callback x = false) rest)
    /\ img_dev (w_dev w') =
         set_action_result 0
           (set_acquire_data None
              (set_acquire_img None (img_dev (w_dev w))))
    /\ action_state (img_dev (w_dev w')) = action_state (img_dev (w_dev w)).
Proof.
  intros He Hn Hst.
  assert (Hbr : present && state_eqb (action_state (img_dev (w_dev w)))
                             IMG_ACQUIRE_STATE_AWAIT_FINGER_ON = false).
  { destruct Hst as [->|Hst]; [reflexivity|].
    apply state_eqb_neq in Hst. rewrite Hst. apply andb_false_r. }
  rewrite (report_result_run present w He Hn Hbr).
  eexists. split; [reflexivity|]. cbn.
  split; [reflexivity|]. split; [|split; reflexivity].
  unfold result_report.
  destruct (action (img_dev (w_dev w))); try congruence;
    try destruct (acquire_data (img_dev (w_dev w)));
    do 2 eexists; (split; [reflexivity|]); split;
    try reflexivity; repeat constructor.
Qed.

(** ** Further properties: whole finger cycles *)

#[global] Arguments fpi_imgdev_report_finger_status : simpl never.
#[global] Arguments fpi_imgdev_image_captured : simpl never.

(** An accepted image in a verify cycle: the world it leaves. *)
Lemma verify_image_run `{codes : fprint_h} `{ext : collaborators}
    (img : fp_img) (w : world)
    (r : Z) (print : option fp_print_data) (img' : fp_img) (m : fp_minutiae) :
  action_state (img_dev (w_dev w)) = IMG_ACQUIRE_STATE_AWAIT_IMAGE ->
  action_result (img_dev (w_dev w)) = 0 ->
  action (img_dev (w_dev w)) = IMG_ACTION_VERIFY ->
  0 <= fst (sanitize_image (w_dev w) img) ->
  extraction_of (w_dev w) img = (r, print, img') ->
  0 <= r ->
  minutiae img' = Some m ->
  MIN_ACCEPTABLE_MINUTIAE <= num m ->
  let s := fpi_img_compare_print_data (verify_data (w_dev w)) print in
  let verdict :=
    if match_threshold (w_dev w) <=? s then FP_VERIFY_MATCH
    else if 0 <=? s then FP_VERIFY_NO_MATCH else s in
  fpi_imgdev_image_captured img w =
    Some (tt,
      {| w_dev := set_img_dev
           (set_action_state IMG_ACQUIRE_STATE_AWAIT_FINGER_OFF
              (set_action_result verdict
                 (set_acquire_data print
                    (set_acquire_img (Some img') (img_dev (w_dev w))))))
           (w_dev w);
         w_log := w_log w ++
           change_state_request (w_dev w) IMGDEV_STATE_AWAIT_FINGER_OFF |}).
Proof.
  intros Hs Hr Ha Hok Hx Hpos Hm Hnum s verdict.
  assert (Hnc : action (img_dev (w_dev w)) <> IMG_ACTION_CAPTURE)
    by (rewrite Ha; discriminate).
  rewrite (image_captured_extracting img w Hs Hr Hok Hnc), Hx, Hm.
  assert (Er : (r <? 0) = false) by (apply Z.ltb_ge; assumption).
  assert (En : (num m <? MIN_ACCEPTABLE_MINUTIAE) = false)
    by (apply Z.ltb_ge; assumption).
  rewrite Er, En.
  unfold decision_step, verify_process_img, holding.
  unfold_monad. cbn. rewrite Ha. cbn.
  rewrite next_state_run. cbn. reflexivity.
Qed.

(** X6: a verify cycle with an accepted template, from the image to the
    finger lift: the caller gets one verify-result notification carrying the
    verdict (Match, NoMatch or the negative score, by the threshold) and the
    image of this cycle; the acquired template is freed; afterwards
    action_result is 0 and nothing is in flight.  The machine stays in
    AwaitFingerOff: verify is not re-armed. *)
Theorem verify_cycle_reports_verdict
    `{codes : fprint_h} `{ext : collaborators} `{fe : front_end}
    (img : fp_img) (w : world)
    (r : Z) (print : option fp_print_data) (img' : fp_img) (m : fp_minutiae) :
  action_state (img_dev (w_dev w)) = IMG_ACQUIRE_STATE_AWAIT_IMAGE ->
  action_result (img_dev (w_dev w)) = 0 ->
  action (img_dev (w_dev w)) = IMG_ACTION_VERIFY ->
  0 <= fst (sanitize_image (w_dev w) img) ->
  extraction_of (w_dev w) img = (r, print, img') ->
  0 <= r ->
  minutiae img' = Some m ->
  MIN_ACCEPTABLE_MINUTIAE <= num m ->
  let s := fpi_img_compare_print_data (verify_data (w_dev w)) print in
  let threshold :=
    if bz3_threshold (drv (w_dev w)) =? 0 then 40
    else bz3_threshold (drv (w_dev w)) in
  let verdict :=
    if threshold <=? s then FP_VERIFY_MATCH
    else if 0 <=? s then FP_VERIFY_NO_MATCH else s in
  exists w',
    (fpi_imgdev_image_captured img ;;
     fpi_imgdev_report_finger_status false) w = Some (tt, w')
    /\ w_log w' = w_log w
         ++ change_state_request (w_dev w) IMGDEV_STATE_AWAIT_FINGER_OFF
         ++ ReportVerifyResult verdict (Some img')
         :: match print with Some p => [PrintDataFree p] | None => [] end
    /\ img_dev (w_dev w') =
         set_action_state IMG_ACQUIRE_STATE_AWAIT_FINGER_OFF
           (set_acquire_data None (set_acquire_img None (img_dev (w_dev w)))).
Proof.
  intros Hs Hr Ha Hok Hx Hpos Hm Hnum s threshold verdict.
  unfold bind.
  rewrite (verify_image_run img w r print img' m Hs Hr Ha Hok Hx Hpos Hm Hnum).
  rewrite report_result_run; cbn; try (rewrite Ha; discriminate);
    [|reflexivity].
  eexists. split; [reflexivity|]. cbn.
  unfold result_report. cbn. rewrite Ha. cbn.
  split.
  - rewrite <- app_assoc. reflexivity.
  - explode w. cbn in *. subst. reflexivity.
Qed.

(** An accepted image in an identify cycle: the world it leaves. *)
Lemma identify_image_run `{codes : fprint_h} `{ext : collaborators}
    (img : fp_img) (w : world)
    (r : Z) (print : option fp_print_data) (img' : fp_img) (m : fp_minutiae) :
  action_state (img_dev (w_dev w)) = IMG_ACQUIRE_STATE_AWAIT_IMAGE ->
  action_result (img_dev (w_dev w)) = 0 ->
  action (img_dev (w_dev w)) = IMG_ACTION_IDENTIFY ->
  0 <= fst (sanitize_image (w_dev w) img) ->
  extraction_of (w_dev w) img = (r, print, img') ->
  0 <= r ->
  minutiae img' = Some m ->
  MIN_ACCEPTABLE_MINUTIAE <= num m ->
  let found :=
    fpi_img_compare_print_data_to_gallery print
      (identify_gallery (w_dev w)) (match_threshold (w_dev w)) in
  fpi_imgdev_image_captured img w =
    Some (tt,
      {| w_dev := set_img_dev
           (set_action_state IMG_ACQUIRE_STATE_AWAIT_FINGER_OFF
              (set_identify_match_offset (snd found)
                 (set_action_result (fst found)
                    (set_acquire_data print
                       (set_acquire_img (Some img') (img_dev (w_dev w)))))))
           (w_dev w);
         w_log := w_log w ++
           change_state_request (w_dev w) IMGDEV_STATE_AWAIT_FINGER_OFF |}).
Proof.
  intros Hs Hr Ha Hok Hx Hpos Hm Hnum found.
  assert (Hnc : action (img_dev (w_dev w)) <> IMG_ACTION_CAPTURE)
    by (rewrite Ha; discriminate).
  rewrite (image_captured_extracting img w Hs Hr Hok Hnc), Hx, Hm.
  assert (Er : (r <? 0) = false) by (apply Z.ltb_ge; assumption).
  assert (En : (num m <? MIN_ACCEPTABLE_MINUTIAE) = false)
    by (apply Z.ltb_ge; assumption).
  rewrite Er, En. subst found.
  unfold decision_step, identify_process_img, holding, match_threshold.
  unfold_monad. cbn. rewrite Ha. cbn.
  match goal with
  | |- context [fpi_img_compare_print_data_to_gallery ?a ?b ?c] =>
      destruct (fpi_img_compare_print_data_to_gallery a b c) as [r0 off]
  end.
  cbn. rewrite next_state_run. cbn. reflexivity.
Qed.

(** X7: an identify cycle with an accepted template, from the image to the
    finger lift: the gallery comparison is called once with the acquired
    template, the device's gallery and the threshold (bz3_threshold, or 40
    when that is 0); the code and the offset it returns are what the caller
    is notified of, with the image of this cycle.  Afterwards action_result
    is 0 and nothing is in flight, but identify_match_offset keeps the offset
    of this cycle. *)
Theorem identify_cycle_reports_gallery_result
    `{codes : fprint_h} `{ext : collaborators} `{fe : front_end}
    (img : fp_img) (w : world)
    (r : Z) (print : option fp_print_data) (img' : fp_img) (m : fp_minutiae) :
  action_state (img_dev (w_dev w)) = IMG_ACQUIRE_STATE_AWAIT_IMAGE ->
  action_result (img_dev (w_dev w)) = 0 ->
  action (img_dev (w_dev w)) = IMG_ACTION_IDENTIFY ->
  0 <= fst (sanitize_image (w_dev w) img) ->
  extraction_of (w_dev w) img = (r, print, img') ->
  0 <= r ->
  minutiae img' = Some m ->
  MIN_ACCEPTABLE_MINUTIAE <= num m ->
  let threshold :=
    if bz3_threshold (drv (w_dev w)) =? 0 then 40
    else bz3_threshold (drv (w_dev w)) in
  let found :=
    fpi_img_compare_print_data_to_gallery print
      (identify_gallery (w_dev w)) threshold in
  exists w',
    (fpi_imgdev_image_captured img ;;
     fpi_imgdev_report_finger_status false) w = Some (tt, w')
    /\ w_log w' = w_log w
         ++ change_state_request (w_dev w) IMGDEV_STATE_AWAIT_FINGER_OFF
         ++ ReportIdentifyResult (fst found) (snd found) (Some img')
         :: match print with Some p => [PrintDataFree p] | None => [] end
    /\ img_dev (w_dev w') =
         set_action_state IMG_ACQUIRE_STATE_AWAIT_FINGER_OFF
           (set_identify_match_offset (snd found)
              (set_acquire_data None
                 (set_acquire_img None (img_dev (w_dev w))))).
Proof.
  intros Hs Hr Ha Hok Hx Hpos Hm Hnum threshold found.
  unfold bind.
  rewrite (identify_image_run img w r print img' m Hs Hr Ha Hok Hx Hpos Hm Hnum).
  rewrite report_result_run; cbn; try (rewrite Ha; discriminate);
    [|reflexivity].
  eexists. split; [reflexivity|]. cbn.
  unfold result_report. cbn. rewrite Ha. cbn.
  split.
  - rewrite <- app_assoc. reflexivity.
  - explode w. cbn in *. subst. reflexivity.
Qed.

(** X8: a capture cycle whose image passes the sanitizer, from the image to
    the finger lift: no template is extracted or kept; the caller gets one
    capture-result notification with CaptureComplete and the sanitized,
    standardized image; afterwards action_result is 0 and nothing is in
    flight. *)
Theorem capture_cycle_reports_image
    `{codes : fprint_h} `{ext : collaborators} `{fe : front_end}
    (img : fp_img) (w : world) :
  action_state (img_dev (w_dev w)) = IMG_ACQUIRE_STATE_AWAIT_IMAGE ->
  action_result (img_dev (w_dev w)) = 0 ->
  action (img_dev (w_dev w)) = IMG_ACTION_CAPTURE ->
  0 <= fst (sanitize_image (w_dev w) img) ->
  let img' := fp_img_standardize (snd (sanitize_image (w_dev w) img)) in
  exists w1 w',
    fpi_imgdev_image_captured img w = Some (tt, w1)
    /\ acquire_img (img_dev (w_dev w1)) = Some img'
    /\ acquire_data (img_dev (w_dev w1)) = None
    /\ action_result (img_dev (w_dev w1)) = FP_CAPTURE_COMPLETE
    /\ fpi_imgdev_report_finger_status false w1 = Some (tt, w')
    /\ w_log w' = w_log w
         ++ change_state_request (w_dev w) IMGDEV_STATE_AWAIT_FINGER_OFF
         ++ [ReportCaptureResult FP_CAPTURE_COMPLETE (Some img')]
    /\ img_dev (w_dev w') =
         set_action_state IMG_ACQUIRE_STATE_AWAIT_FINGER_OFF
           (set_acquire_data None (set_acquire_img None (img_dev (w_dev w)))).
Proof.
  intros Hs Hr Ha Hok img'.
  rewrite (image_captured_capturing img w Hs Hr Hok Ha).
  unfold decision_step, holding. unfold_monad. cbn. rewrite Ha. cbn.
  rewrite next_state_run. cbn.
  do 2 eexists. split; [reflexivity|].
  rewrite report_result_run;
    [ | cbn; rewrite Ha; discriminate | cbn; rewrite Ha; discriminate
    | reflexivity ].
  unfold result_report. cbn. rewrite Ha. cbn.
  split; [reflexivity|]. split; [reflexivity|]. split; [reflexivity|].
  split; [reflexivity|].
  split.
  - rewrite <- app_assoc. reflexivity.
  - explode w. cbn in *. subst. reflexivity.
Qed.

(** The reporting code of [fpi_imgdev_report_finger_status] for enroll, away
    from EnrollComplete, when the front end does nothing in the callback. *)
Lemma report_enroll_run `{codes : fprint_h} `{ext : collaborators}
    (present : bool) (w : world) :
  action (img_dev (w_dev w)) = IMG_ACTION_ENROLL ->
  present && state_eqb (action_state (img_dev (w_dev w)))
               IMG_ACQUIRE_STATE_AWAIT_FINGER_ON = false ->
  action_result (img_dev (w_dev w)) <> FP_ENROLL_COMPLETE ->
  let d := img_dev (w_dev w) in
  let r := action_result d in
  let cleared := set_acquire_data None (set_acquire_img None d) in
  fpi_imgdev_report_finger_status (fe := front_end_passive) present w =
    Some (tt,
      if (0 <? r) && negb (r =? FP_ENROLL_FAIL) then
        {| w_dev := set_img_dev
             (set_action_state IMG_ACQUIRE_STATE_AWAIT_FINGER_ON
                (set_action_result 0 cleared)) (w_dev w);
           w_log := w_log w
             ++ EnrollStageCompleted r None (acquire_img d)
             :: change_state_request (w_dev w) IMGDEV_STATE_AWAIT_FINGER_ON |}
      else
        {| w_dev := set_img_dev cleared (w_dev w);
           w_log := w_log w ++ [EnrollStageCompleted r None (acquire_img d)] |}).
Proof.
  intros Ha Hbr Hc d r cleared. subst d r cleared.
  explode w. subst action0. apply Z.eqb_neq in Hc.
  unfold fpi_imgdev_report_finger_status, fpi_drvcb_enroll_stage_completed,
    dev_change_state, change_state_request.
  unfold_monad.
  destruct present, action_state0; cbn in Hbr; try discriminate Hbr;
    cbn; rewrite Hc; cbn; rewrite andb_true_r;
    destruct ((0 <? action_result0) && negb (action_result0 =? FP_ENROLL_FAIL));
    cbn; try reflexivity;
    destruct drv0 as [? ? ? [f|] ? ? ?]; cbn;
    rewrite <- ?app_assoc, ?app_nil_r; reflexivity.
Qed.

(** The same reporting code for any front end: the world handed to the stage
    callback, and the recheck of the action once the callback has returned. *)
Lemma report_enroll_calls_back
    `{codes : fprint_h} `{ext : collaborators} `{fe : front_end}
    (present : bool) (w : world) :
  action (img_dev (w_dev w)) = IMG_ACTION_ENROLL ->
  present && state_eqb (action_state (img_dev (w_dev w)))
               IMG_ACQUIRE_STATE_AWAIT_FINGER_ON = false ->
  action_result (img_dev (w_dev w)) <> FP_ENROLL_COMPLETE ->
  let d := img_dev (w_dev w) in
  let r := action_result d in
  let w1 :=
    {| w_dev := set_img_dev (set_acquire_data None (set_acquire_img None d))
                  (w_dev w);
       w_log := w_log w ++ [EnrollStageCompleted r None (acquire_img d)] |} in
  fpi_imgdev_report_finger_status present w =
    match enroll_stage_completed_cb r None (acquire_img d) w1 with
    | None => None
    | Some (_, w2) =>
        Some (tt,
          if action_eqb (action (img_dev (w_dev w2))) IMG_ACTION_ENROLL
             && ((0 <? r) && negb (r =? FP_ENROLL_FAIL))
          then
            {| w_dev := set_img_dev
                 (set_action_state IMG_ACQUIRE_STATE_AWAIT_FINGER_ON
                    (set_action_result 0 (img_dev (w_dev w2)))) (w_dev w2);
               w_log := w_log w2
                 ++ change_state_request (w_dev w2)
                      IMGDEV_STATE_AWAIT_FINGER_ON |}
          else w2)
    end.
Proof.
  intros Ha Hbr Hc d r w1. subst d r w1.
  explode w. subst action0. apply Z.eqb_neq in Hc.
  unfold fpi_imgdev_report_finger_status, fpi_drvcb_enroll_stage_completed,
    dev_change_state, change_state_request.
  unfold_monad.
  unfold set_img_dev, set_acquire_data, set_acquire_img, set_action_state,
    set_action_result.
  destruct present, action_state0; cbn in Hbr; try discriminate Hbr;
    cbn; rewrite Hc; cbn;
    match goal with
    | |- context [enroll_stage_completed_cb ?r ?t ?i ?w0] =>
        destruct (enroll_stage_completed_cb r t i w0) as [[[] w2]|];
        [|reflexivity]
    end;
    cbn; rewrite andb_true_r;
    destruct (action_eqb (action (img_dev (w_dev w2))) IMG_ACTION_ENROLL);
    cbn; try reflexivity;
    destruct ((0 <? action_result0) && negb (action_result0 =? FP_ENROLL_FAIL));
    cbn; try reflexivity;
    destruct (change_state (drv (w_dev w2))); cbn;
    rewrite ?app_nil_r; reflexivity.
Qed.

Lemma rearmed_after_callback_intro (b : bool) (w2 : world) :
  b = true ->
  rearmed_after_callback w2
    (if action_eqb (action (img_dev (w_dev w2))) IMG_ACTION_ENROLL && b
     then
       {| w_dev := set_img_dev
            (set_action_state IMG_ACQUIRE_STATE_AWAIT_FINGER_ON
               (set_action_result 0 (img_dev (w_dev w2)))) (w_dev w2);
          w_log := w_log w2
            ++ change_state_request (w_dev w2)
                 IMGDEV_STATE_AWAIT_FINGER_ON |}
     else w2).
Proof.
  intros ->. rewrite andb_true_r. split; intros Ha.
  - apply action_eqb_eq in Ha. rewrite Ha. cbn. split; reflexivity.
  - apply action_eqb_neq in Ha. rewrite Ha. reflexivity.
Qed.

(** X9: an accepted enroll cycle that is not the last one, from the image to
    the finger lift (result codes as a front end needs them: EnrollPass
    positive and distinct from EnrollComplete and EnrollFail), for any front
    end.  The stage callback is called with EnrollPass, the image and no
    template, on a device where the item of this cycle is at the head of the
    accumulator (items are held newest first), the emptied per-cycle template
    is freed, nothing is in flight and the driver has been asked for
    AwaitFingerOff.  When the callback returns, the action is read again: if
    it is still enroll the machine re-arms itself on what the callback left
    (AwaitFingerOn, action_result 0, the driver asked for AwaitFingerOn); if
    the callback cancelled the enrollment nothing more is done.  A callback
    that does not return stops the report. *)
Theorem enroll_pass_cycle_rearms
    `{codes : fprint_h} `{ext : collaborators} `{fe : front_end}
    (img : fp_img) (w : world)
    (r : Z) (p : fp_print_data) (img' : fp_img) (m : fp_minutiae)
    (item : fp_print_data_item) :
  0 < FP_ENROLL_PASS ->
  FP_ENROLL_PASS <> FP_ENROLL_COMPLETE ->
  FP_ENROLL_PASS <> FP_ENROLL_FAIL ->
  action_state (img_dev (w_dev w)) = IMG_ACQUIRE_STATE_AWAIT_IMAGE ->
  action_result (img_dev (w_dev w)) = 0 ->
  action (img_dev (w_dev w)) = IMG_ACTION_ENROLL ->
  0 <= fst (sanitize_image (w_dev w) img) ->
  extraction_of (w_dev w) img = (r, Some p, img') ->
  0 <= r ->
  minutiae img' = Some m ->
  MIN_ACCEPTABLE_MINUTIAE <= num m ->
  prints p = [item] ->
  INT_MIN <= enroll_stage (img_dev (w_dev w)) < INT_MAX ->
  enroll_stage (img_dev (w_dev w)) + 1 <> nr_enroll_stages (w_dev w) ->
  let d := img_dev (w_dev w) in
  let acc := match enroll_data d with
             | Some e => e
             | None =>
                 fpi_print_data_new
                   (set_img_dev
                      (set_acquire_data (Some p)
                         (set_acquire_img (Some img') d)) (w_dev w))
             end in
  let w1 :=
    {| w_dev := set_img_dev
         {| action := IMG_ACTION_ENROLL;
            action_state := IMG_ACQUIRE_STATE_AWAIT_FINGER_OFF;
            action_result := FP_ENROLL_PASS;
            enroll_stage := enroll_stage d + 1;
            enroll_data := Some (set_prints (item :: prints acc) acc);
            acquire_img := None;
            acquire_data := None;
            identify_match_offset := identify_match_offset d |}
         (w_dev w);
       w_log := w_log w
         ++ PrintDataFree (set_prints [] p)
         :: change_state_request (w_dev w) IMGDEV_STATE_AWAIT_FINGER_OFF
         ++ [EnrollStageCompleted FP_ENROLL_PASS None (Some img')] |} in
  let cycle := (fpi_imgdev_image_captured img ;;
                fpi_imgdev_report_finger_status false) w in
  (forall w2,
     enroll_stage_completed_cb FP_ENROLL_PASS None (Some img') w1
       = Some (tt, w2) ->
     exists w', cycle = Some (tt, w') /\ rearmed_after_callback w2 w')
  /\ (enroll_stage_completed_cb FP_ENROLL_PASS None (Some img') w1 = None ->
      cycle = None).
Proof.
  intros Hp0 Hpc Hpf Hs Hr Ha Hok Hx Hpos Hm Hnum Hp Hrange Hnot d acc w1 cycle.
  assert (E : (0 <? FP_ENROLL_PASS) && negb (FP_ENROLL_PASS =? FP_ENROLL_FAIL)
              = true).
  { apply andb_true_iff. split; [apply Z.ltb_lt; assumption|].
    apply negb_true_iff. apply Z.eqb_neq. assumption. }
  assert (Ecycle : cycle =
    match enroll_stage_completed_cb FP_ENROLL_PASS None (Some img') w1 with
    | None => None
    | Some (_, w2) =>
        Some (tt,
          if action_eqb (action (img_dev (w_dev w2))) IMG_ACTION_ENROLL
             && ((0 <? FP_ENROLL_PASS)
                 && negb (FP_ENROLL_PASS =? FP_ENROLL_FAIL))
          then
            {| w_dev := set_img_dev
                 (set_action_state IMG_ACQUIRE_STATE_AWAIT_FINGER_ON
                    (set_action_result 0 (img_dev (w_dev w2)))) (w_dev w2);
               w_log := w_log w2
                 ++ change_state_request (w_dev w2)
                      IMGDEV_STATE_AWAIT_FINGER_ON |}
          else w2)
    end).
  { subst cycle w1 d acc. unfold bind.
    rewrite (enroll_cycle_accepted img w r p img' m item
               Hs Hr Ha Hok Hx Hpos Hm Hnum Hp).
    cbn zeta. rewrite wrap_int_id by lia.
    apply Z.eqb_neq in Hnot. rewrite Hnot.
    rewrite report_enroll_calls_back; [|reflexivity|reflexivity|exact Hpc].
    cbn. rewrite <- !app_assoc. reflexivity. }
  rewrite Ecycle. split.
  - intros w2 Ecb. rewrite Ecb. eexists. split; [reflexivity|].
    apply rearmed_after_callback_intro. exact E.
  - intros Ecb. rewrite Ecb. reflexivity.
Qed.

(** X10: an enroll cycle whose image passes the sanitizer but is rejected
    (extraction fails, or fewer than 10 minutiae), from the image to the
    finger lift (EnrollRetry positive and distinct from EnrollComplete and
    EnrollFail), for any front end.  The stage callback is called with
    EnrollRetry, the image and no template, on a device whose enroll_stage
    and accumulator are what they were (a retry costs no stage), with nothing
    in flight.  When the callback returns, the action is read again: if it
    is still enroll the machine re-arms itself on what the callback left
    (AwaitFingerOn, action_result 0, the driver asked for AwaitFingerOn); if
    the callback cancelled the enrollment nothing more is done.  A callback
    that does not return stops the report. *)
Theorem enroll_retry_cycle_rearms
    `{codes : fprint_h} `{ext : collaborators} `{fe : front_end}
    (img : fp_img) (w : world)
    (r : Z) (print : option fp_print_data) (img' : fp_img) :
  0 < FP_ENROLL_RETRY ->
  FP_ENROLL_RETRY <> FP_ENROLL_COMPLETE ->
  FP_ENROLL_RETRY <> FP_ENROLL_FAIL ->
  action_state (img_dev (w_dev w)) = IMG_ACQUIRE_STATE_AWAIT_IMAGE ->
  action_result (img_dev (w_dev w)) = 0 ->
  action (img_dev (w_dev w)) = IMG_ACTION_ENROLL ->
  0 <= fst (sanitize_image (w_dev w) img) ->
  extraction_of (w_dev w) img = (r, print, img') ->
  r < 0
  \/ (exists m, minutiae img' = Some m /\ num m < MIN_ACCEPTABLE_MINUTIAE) ->
  let freed := if r <? 0 then []
               else match print with
                    | Some p => [PrintDataFree p]
                    | None => []
                    end in
  let w1 :=
    {| w_dev := set_img_dev
         (set_action_state IMG_ACQUIRE_STATE_AWAIT_FINGER_OFF
            (set_action_result FP_ENROLL_RETRY
               (set_acquire_data None
                  (set_acquire_img None (img_dev (w_dev w))))))
         (w_dev w);
       w_log := w_log w ++ freed
         ++ change_state_request (w_dev w) IMGDEV_STATE_AWAIT_FINGER_OFF
         ++ [EnrollStageCompleted FP_ENROLL_RETRY None (Some img')] |} in
  let cycle := (fpi_imgdev_image_captured img ;;
                fpi_imgdev_report_finger_status false) w in
  (forall w2,
     enroll_stage_completed_cb FP_ENROLL_RETRY None (Some img') w1
       = Some (tt, w2) ->
     exists w', cycle = Some (tt, w') /\ rearmed_after_callback w2 w')
  /\ (enroll_stage_completed_cb FP_ENROLL_RETRY None (Some img') w1 = None ->
      cycle = None).
Proof.
  intros Hp0 Hpc Hpf Hs Hr Ha Hok Hx Hrej freed w1 cycle.
  assert (Hnc : action (img_dev (w_dev w)) <> IMG_ACTION_CAPTURE)
    by (rewrite Ha; discriminate).
  assert (E : (0 <? FP_ENROLL_RETRY)
              && negb (FP_ENROLL_RETRY =? FP_ENROLL_FAIL) = true).
  { apply andb_true_iff. split; [apply Z.ltb_lt; assumption|].
    apply negb_true_iff. apply Z.eqb_neq. assumption. }
  assert (Hretry :
    fpi_imgdev_image_captured img w =
      Some (tt,
        {| w_dev := set_img_dev
             (set_action_state IMG_ACQUIRE_STATE_AWAIT_FINGER_OFF
                (set_action_result FP_ENROLL_RETRY
                   (set_acquire_img (Some img') (img_dev (w_dev w)))))
             (w_dev w);
           w_log := w_log w ++ freed ++
             change_state_request (w_dev w) IMGDEV_STATE_AWAIT_FINGER_OFF |})).
  { subst freed.
    rewrite (image_captured_extracting img w Hs Hr Hok Hnc), Hx.
    destruct (r <? 0) eqn:Er.
    - unfold holding. unfold_monad. cbn. rewrite next_state_run. cbn.
      reflexivity.
    - destruct Hrej as [Hneg|(m & Hm & Hnum)];
        [apply Z.ltb_ge in Er; lia|].
      apply Z.ltb_lt in Hnum. rewrite Hm, Hnum.
      unfold holding. unfold_monad.
      destruct print as [p|]; cbn; rewrite next_state_run; cbn;
        rewrite <- ?app_assoc; reflexivity. }
  assert (Ecycle : cycle =
    match enroll_stage_completed_cb FP_ENROLL_RETRY None (Some img') w1 with
    | None => None
    | Some (_, w2) =>
        Some (tt,
          if action_eqb (action (img_dev (w_dev w2))) IMG_ACTION_ENROLL
             && ((0 <? FP_ENROLL_RETRY)
                 && negb (FP_ENROLL_RETRY =? FP_ENROLL_FAIL))
          then
            {| w_dev := set_img_dev
                 (set_action_state IMG_ACQUIRE_STATE_AWAIT_FINGER_ON
                    (set_action_result 0 (img_dev (w_dev w2)))) (w_dev w2);
               w_log := w_log w2
                 ++ change_state_request (w_dev w2)
                      IMGDEV_STATE_AWAIT_FINGER_ON |}
          else w2)
    end).
  { subst cycle w1. unfold bind. rewrite Hretry.
    rewrite report_enroll_calls_back; [|exact Ha|reflexivity|exact Hpc].
    cbn. rewrite <- !app_assoc.
    explode w. cbn in *. reflexivity. }
  rewrite Ecycle. split.
  - intros w2 Ecb. rewrite Ecb. eexists. split; [reflexivity|].
    apply rearmed_after_callback_intro. exact E.
  - intros Ecb. rewrite Ecb. reflexivity.
Qed.

(** X11: in enroll an input error is final.  When the image of an enroll
    cycle fails the sanitizer, the finger lift notifies the caller of -EINVAL
    with no template, and nothing is re-armed: the machine stays in
    AwaitFingerOff with action_result still -EINVAL (verify, identify and
    capture would have cleared it), enroll_stage and the accumulator
    untouched. *)
Theorem enroll_input_error_is_final `{codes : fprint_h} `{ext : collaborators}
    (img : fp_img) (w : world) :
  FP_ENROLL_COMPLETE <> - EINVAL ->
  action_state (img_dev (w_dev w)) = IMG_ACQUIRE_STATE_AWAIT_IMAGE ->
  action_result (img_dev (w_dev w)) = 0 ->
  action (img_dev (w_dev w)) = IMG_ACTION_ENROLL ->
  fst (sanitize_image (w_dev w) img) < 0 ->
  exists w',
    (fpi_imgdev_image_captured img ;;
     fpi_imgdev_report_finger_status (fe := front_end_passive) false) w
      = Some (tt, w')
    /\ img_dev (w_dev w') =
         set_action_state IMG_ACQUIRE_STATE_AWAIT_FINGER_OFF
           (set_action_result (- EINVAL)
              (set_acquire_data None
                 (set_acquire_img None (img_dev (w_dev w)))))
    /\ w_log w' = w_log w
         ++ ImgFree (snd (sanitize_image (w_dev w) img))
         :: change_state_request (w_dev w) IMGDEV_STATE_AWAIT_FINGER_OFF
         ++ [EnrollStageCompleted (- EINVAL) None
               (acquire_img (img_dev (w_dev w)))].
Proof.
  intros Hc Hs Hr Ha Hf.
  assert (Hcode : fst (sanitize_image (w_dev w) img) = - EINVAL).
  { destruct (sanitize_image_codes (w_dev w) img) as [E|E]; [lia|exact E]. }
  unfold bind.
  rewrite (image_captured_sanitize_failed img w Hs Hr Hf), Hcode.
  rewrite report_enroll_run;
    [|exact Ha|reflexivity|intros E; apply Hc; symmetry; exact E].
  cbn.
  eexists. split; [reflexivity|]. cbn.
  split; [explode w; cbn in *; subst; reflexivity|].
  rewrite <- app_assoc. reflexivity.
Qed.

(** X12: a scan aborted by the driver during verify, identify or capture is
    reported at the finger lift like any other result: [fpi_imgdev_abort_scan]
    puts its code in action_result, whatever was there, and moves to
    AwaitFingerOff; the finger report then notifies the caller of that code
    with the image in flight and clears the result. *)
Theorem abort_scan_is_reported
    `{codes : fprint_h} `{ext : collaborators} `{fe : front_end}
    (result : Z) (w : world) :
  action (img_dev (w_dev w)) <> IMG_ACTION_ENROLL ->
  action (img_dev (w_dev w)) <> IMG_ACTION_NONE ->
  exists w1 w',
    fpi_imgdev_abort_scan result w = Some (tt, w1)
    /\ action_result (img_dev (w_dev w1)) = result
    /\ action_state (img_dev (w_dev w1)) = IMG_ACQUIRE_STATE_AWAIT_FINGER_OFF
    /\ fpi_imgdev_report_finger_status false w1 = Some (tt, w')
    /\ w_log w' = w_log w
         ++ change_state_request (w_dev w) IMGDEV_STATE_AWAIT_FINGER_OFF
         ++ result_report (set_action_result result (img_dev (w_dev w)))
    /\ img_dev (w_dev w') =
         set_action_state IMG_ACQUIRE_STATE_AWAIT_FINGER_OFF
           (set_action_result 0
              (set_acquire_data None
                 (set_acquire_img None (img_dev (w_dev w))))).
Proof.
  intros He Hn.
  assert (Erun : fpi_imgdev_abort_scan result w =
            Some (tt,
              {| w_dev := set_img_dev
                   (set_action_state IMG_ACQUIRE_STATE_AWAIT_FINGER_OFF
                      (set_action_result result (img_dev (w_dev w))))
                   (w_dev w);
                 w_log := w_log w ++
                   change_state_request (w_dev w)
                     IMGDEV_STATE_AWAIT_FINGER_OFF |})).
  { unfold fpi_imgdev_abort_scan, dev_change_state, change_state_request.
    unfold_monad. cbn.
    destruct (change_state (drv (w_dev w))); cbn;
      rewrite ?app_nil_r; reflexivity. }
  rewrite Erun. do 2 eexists. split; [reflexivity|].
  rewrite report_result_run; [|exact He|exact Hn|reflexivity].
  cbn. split; [reflexivity|]. split; [reflexivity|].
  split; [reflexivity|].
  split.
  - rewrite <- app_assoc. unfold result_report. cbn. reflexivity.
  - explode w. reflexivity.
Qed.

(** ** Further properties: start, stop and open *)

(** X13: stop, deactivation-complete and a new start leave a clean machine
    for the new action: Activating, enroll_stage 0, action_result 0, no
    accumulator and nothing in flight; the new start returns what the
    driver's activate returned (0 without the callable).  The only field that
    outlives the old action is identify_match_offset, which the identify stop
    resets and the three other stops keep. *)
Theorem stop_then_start_is_clean
    (a b : fp_imgdev_action) (iterating : bool) (w : world) :
  a <> IMG_ACTION_NONE ->
  action (img_dev (w_dev w)) = a ->
  exists w',
    (img_dev_stop a iterating ;;
     fpi_imgdev_deactivate_complete ;;
     generic_acquire_start b) w
    = Some (activate_code (w_dev w) IMGDEV_STATE_AWAIT_FINGER_ON, w')
    /\ img_dev (w_dev w') =
         {| action := b;
            action_state := IMG_ACQUIRE_STATE_ACTIVATING;
            action_result := 0;
            enroll_stage := 0;
            enroll_data := None;
            acquire_img := None;
            acquire_data := None;
            identify_match_offset :=
              if action_eqb a IMG_ACTION_IDENTIFY then 0
              else identify_match_offset (img_dev (w_dev w)) |}
    /\ w_log w' = w_log w
         ++ deactivate_request (w_dev w)
         ++ stop_releases (img_dev (w_dev w))
         ++ stopped_notification a
         ++ activate_request (w_dev w) IMGDEV_STATE_AWAIT_FINGER_ON.
Proof.
  intros Ha Hact. explode w. subst a.
  unfold img_dev_stop, img_dev_enroll_stop, img_dev_verify_stop,
    img_dev_identify_stop, img_dev_capture_stop, generic_acquire_stop,
    dev_deactivate, fpi_imgdev_deactivate_complete, generic_acquire_start,
    dev_activate, deactivate_request, stop_releases, activate_request,
    activate_code.
  unfold_monad.
  destruct action0; try congruence;
    destruct drv0 as [? ? ? ? [g|] [[]|] ?];
    destruct acquire_data0, enroll_data0, acquire_img0;
    cbn; unfold emit; cbn; eexists; (split; [reflexivity|]); cbn;
    rewrite <- ?app_assoc, ?app_nil_r; cbn; split; reflexivity.
Qed.

(** One event on a device whose action is not enroll. *)
Lemma deliver_keeps_accumulator
    `{codes : fprint_h} `{ext : collaborators} `{fe : front_end}
    (e : driver_event) (w w' : world) :
  action (img_dev (w_dev w)) <> IMG_ACTION_ENROLL ->
  deliver e w = Some (tt, w') ->
  action (img_dev (w_dev w')) <> IMG_ACTION_ENROLL
  /\ enroll_stage (img_dev (w_dev w')) = enroll_stage (img_dev (w_dev w))
  /\ enroll_data (img_dev (w_dev w')) = enroll_data (img_dev (w_dev w)).
Proof.
  intros Ha Hrun.
  destruct e as [present|img|error|status|]; cbn [deliver] in Hrun.
  - destruct (present && state_eqb (action_state (img_dev (w_dev w)))
                           IMG_ACQUIRE_STATE_AWAIT_FINGER_ON) eqn:Hbr.
    + unfold fpi_imgdev_report_finger_status in Hrun. unfold_monad.
      rewrite Hbr in Hrun.
      destruct (dev_change_state_run IMGDEV_STATE_CAPTURE w) as [x Hx].
      rewrite Hx in Hrun. inversion Hrun; subst w'; cbn; auto.
    + destruct (action_eqb (action (img_dev (w_dev w))) IMG_ACTION_NONE)
        eqn:En.
      * apply action_eqb_eq in En.
        unfold fpi_imgdev_report_finger_status in Hrun. unfold_monad.
        rewrite Hbr, En in Hrun.
        inversion Hrun; subst w'; cbn; auto.
      * apply action_eqb_neq in En.
        rewrite (report_result_run present w Ha En Hbr) in Hrun.
        inversion Hrun; subst w'; cbn; auto.
  - destruct (state_eqb (action_state (img_dev (w_dev w)))
                IMG_ACQUIRE_STATE_AWAIT_IMAGE) eqn:Hs.
    2: { apply state_eqb_neq in Hs.
         rewrite image_captured_returns_early in Hrun by auto.
         inversion Hrun; subst w'; auto. }
    destruct (Z.eq_dec (action_result (img_dev (w_dev w))) 0) as [Hr|Hr].
    2: { rewrite image_captured_returns_early in Hrun by auto.
         inversion Hrun; subst w'; auto. }
    apply state_eqb_eq in Hs.
    destruct (Z_lt_le_dec (fst (sanitize_image (w_dev w) img)) 0) as [Hf|Hok].
    { rewrite (image_captured_sanitize_failed img w Hs Hr Hf) in Hrun.
      inversion Hrun; subst w'; cbn; auto. }
    assert (Hdecide : forall print w0 w1,
              action (img_dev (w_dev w0)) = action (img_dev (w_dev w)) ->
              (decision_step print ;; next_state) w0 = Some (tt, w1) ->
              action (img_dev (w_dev w1)) = action (img_dev (w_dev w0))
              /\ enroll_stage (img_dev (w_dev w1))
                 = enroll_stage (img_dev (w_dev w0))
              /\ enroll_data (img_dev (w_dev w1))
                 = enroll_data (img_dev (w_dev w0))).
    { intros print w0 w1 Ea Hd. rewrite <- Ea in Ha. clear Ea.
      explode w0.
      unfold decision_step, verify_process_img, identify_process_img in Hd.
      unfold_monad. cbn in Hd.
      destruct action0; try congruence; cbn in Hd; try discriminate Hd;
        try match type of Hd with
            | context [fpi_img_compare_print_data_to_gallery ?x ?y ?z] =>
                destruct (fpi_img_compare_print_data_to_gallery x y z)
            end;
        cbn in Hd; rewrite next_state_run in Hd;
        inversion Hd; subst w1; cbn; auto. }
    destruct (action_eqb (action (img_dev (w_dev w))) IMG_ACTION_CAPTURE)
      eqn:Hc.
    + apply action_eqb_eq in Hc.
      rewrite (image_captured_capturing img w Hs Hr Hok Hc) in Hrun.
      apply Hdecide in Hrun; [|reflexivity].
      cbn in Hrun. destruct Hrun as (E1 & E2 & E3).
      rewrite E1, E2, E3. auto.
    + apply action_eqb_neq in Hc.
      rewrite (image_captured_extracting img w Hs Hr Hok Hc) in Hrun.
      destruct (extraction_of (w_dev w) img) as [[r print] img'].
      destruct (r <? 0).
      { unfold holding in Hrun. unfold_monad. cbn in Hrun.
        rewrite next_state_run in Hrun.
        inversion Hrun; subst w'; cbn; auto. }
      destruct (minutiae img') as [m|]; [|discriminate].
      destruct (num m <? MIN_ACCEPTABLE_MINUTIAE).
      { unfold holding in Hrun. unfold_monad.
        destruct print; cbn in Hrun; unfold emit in Hrun; cbn in Hrun;
          rewrite next_state_run in Hrun;
          inversion Hrun; subst w'; cbn; auto. }
      apply Hdecide in Hrun; [|reflexivity].
      cbn in Hrun. destruct Hrun as (E1 & E2 & E3).
      rewrite E1, E2, E3. auto.
  - unfold fpi_imgdev_session_error, fpi_drvcb_enroll_stage_completed,
      fpi_drvcb_report_verify_result, fpi_drvcb_report_identify_result,
      fpi_drvcb_report_capture_result in Hrun.
    unfold_monad.
    destruct (error =? 0); cbn in Hrun; [discriminate|].
    destruct (action (img_dev (w_dev w))) eqn:Ea; try congruence;
      inversion Hrun; subst w'; cbn; rewrite ?Ea;
      repeat split; auto; discriminate.
  - destruct (action_eqb (action (img_dev (w_dev w))) IMG_ACTION_NONE) eqn:En.
    + apply action_eqb_eq in En.
      unfold fpi_imgdev_activate_complete in Hrun. unfold_monad.
      rewrite En in Hrun. inversion Hrun; subst w'; auto.
    + apply action_eqb_neq in En.
      rewrite (activate_complete_run status w En) in Hrun.
      destruct (status =? 0); inversion Hrun; subst w'; cbn; auto.
  - unfold fpi_imgdev_deactivate_complete in Hrun. unfold_monad.
    destruct (action (img_dev (w_dev w))); cbn in Hrun;
      inversion Hrun; subst w'; cbn; repeat split; auto; discriminate.
Qed.

(** X14: verify, identify and capture never touch the enrollment: whatever
    the driver reports while the action is not enroll, enroll_stage and the
    accumulator enroll_data are at the end what they were at the start. *)
Theorem other_actions_keep_enrollment
    `{codes : fprint_h} `{ext : collaborators} `{fe : front_end}
    (es : list driver_event) (w w' : world) :
  action (img_dev (w_dev w)) <> IMG_ACTION_ENROLL ->
  deliver_all es w = Some (tt, w') ->
  enroll_stage (img_dev (w_dev w')) = enroll_stage (img_dev (w_dev w))
  /\ enroll_data (img_dev (w_dev w')) = enroll_data (img_dev (w_dev w)).
Proof.
  revert w. induction es as [|e es IH]; intros w Ha Hrun.
  - cbn in Hrun. inversion Hrun; subst; auto.
  - cbn [deliver_all] in Hrun. unfold bind in Hrun.
    destruct (deliver e w) as [[[] w1]|] eqn:E; [|discriminate].
    destruct (deliver_keeps_accumulator e w w1 Ha E) as (Ha1 & Hs1 & Hd1).
    destruct (IH w1 Ha1 Hrun) as (Hs & Hd).
    rewrite Hs, Hd. auto.
Qed.

(** X15: [img_dev_open] returns exactly what the driver's open callable
    returns, and 0 when the driver has none; in the second case the core
    itself announces open-complete with status 0, in the first it announces
    nothing.  Whatever the device held before, a successful open leaves a
    zeroed machine (no action, state 0, enroll_stage 0, nothing held) and
    nr_enroll_stages is 5. *)
Theorem img_dev_open_outcome (driver_data : Z) (w : world) :
  exists w',
    img_dev_open driver_data w =
      Some (match open (drv (w_dev w)) with
            | Some f => f driver_data
            | None => 0
            end, w')
    /\ w_log w' = w_log w ++
         match open (drv (w_dev w)) with
         | Some _ => [DrvOpen driver_data]
         | None => [OpenComplete 0]
         end
    /\ nr_enroll_stages (w_dev w') = IMG_ENROLL_STAGES
    /\ IMG_ENROLL_STAGES = 5
    /\ drv (w_dev w') = drv (w_dev w)
    /\ (match open (drv (w_dev w)) with
        | Some f => f driver_data
        | None => 0
        end = 0 ->
        img_dev (w_dev w') = imgdev_zero).
Proof.
  unfold img_dev_open. unfold_monad. cbn.
  destruct (open (drv (w_dev w))) as [f|]; cbn.
  - destruct (f driver_data =? 0) eqn:E; cbn.
    + apply Z.eqb_eq in E. rewrite E.
      eexists. split; [reflexivity|]. cbn. repeat split; reflexivity.
    + eexists. split; [reflexivity|]. cbn. repeat split; reflexivity.
  - eexists. split; [reflexivity|]. cbn. repeat split; reflexivity.
Qed.

(** X16: the geometry the core reports agrees with the geometry it enforces.
    [fpi_imgdev_get_img_width] and [fpi_imgdev_get_img_height] leave the
    device alone and return what the driver declares, except that a declared
    -1 (variable size) reads as 0, so they never return -1.  When the width
    (resp. height) they return is positive, every image that passes
    [sanitize_image] has exactly that width (resp. height); when it is not
    (the driver declared -1, 0 or less), [sanitize_image] leaves the width
    (resp. height) of the image as the driver delivered it, and passes only
    images that bring a positive one. *)
Theorem reported_geometry_is_enforced `{ext : collaborators}
    (img : fp_img) (w : world) :
  exists width_r height_r,
    fpi_imgdev_get_img_width w = Some (width_r, w)
    /\ fpi_imgdev_get_img_height w = Some (height_r, w)
    /\ (img_width (drv (w_dev w)) = -1 -> width_r = 0)
    /\ (img_width (drv (w_dev w)) <> -1 ->
        width_r = img_width (drv (w_dev w)))
    /\ (img_height (drv (w_dev w)) = -1 -> height_r = 0)
    /\ (img_height (drv (w_dev w)) <> -1 ->
        height_r = img_height (drv (w_dev w)))
    /\ width_r <> -1
    /\ height_r <> -1
    /\ (width_r <= 0 ->
        width (snd (sanitize_image (w_dev w) img)) = width img)
    /\ (height_r <= 0 ->
        height (snd (sanitize_image (w_dev w) img)) = height img)
    /\ (fst (sanitize_image (w_dev w) img) = 0 ->
        (0 < width_r ->
         width (snd (sanitize_image (w_dev w) img)) = width_r)
        /\ (0 < height_r ->
            height (snd (sanitize_image (w_dev w) img)) = height_r)
        /\ 0 < width (snd (sanitize_image (w_dev w) img))
        /\ 0 < height (snd (sanitize_image (w_dev w) img))).
Proof.
  unfold fpi_imgdev_get_img_width, fpi_imgdev_get_img_height.
  unfold_monad. cbn.
  do 2 eexists. split; [reflexivity|]. split; [reflexivity|].
  destruct (Z.eqb_spec (img_width (drv (w_dev w))) (-1)) as [Ew|Ew];
    destruct (Z.eqb_spec (img_height (drv (w_dev w))) (-1)) as [Eh|Eh];
    (split; [intros; try reflexivity; congruence|]);
    (split; [intros; try reflexivity; congruence|]);
    (split; [intros; try reflexivity; congruence|]);
    (split; [intros; try reflexivity; congruence|]);
    (split; [try discriminate; assumption|]);
    (split; [try discriminate; assumption|]);
    (split; [|split]);
    sanitize_cases; unfold EINVAL in *; intros;
    repeat split; intros; try reflexivity; try lia;
    try match goal with H : _ = 0 |- _ => discriminate H end.
Qed.

(** ** The further properties at concrete inputs *)

Section FurtherEvaluation.

#[local] Existing Instance fprint_h_upstream.
#[local] Existing Instance ext_double.

(** A blank device receiving six assorted events. *)
Lemma idle_device_ignores_events_witness :
  let w := world_of (dev_blank drv_full) in
  let es := [ReportFingerStatus true; ImageCaptured img_good;
             ActivateComplete 0; SessionError 5; DeactivateComplete;
             ReportFingerStatus false] in
  idle (img_dev (w_dev w))
  /\ deliver_all es w = Some (tt, w).
Proof.
  intros w es.
  assert (Hidle : idle (img_dev (w_dev w))) by (repeat split).
  split; [exact Hidle|].
  apply (idle_device_ignores_events es w Hidle).
  repeat constructor; discriminate.
Defined.

(** Session error 7 during identify, the machine waiting for an image. *)
Lemma session_error_notifies_only_witness :
  let w := world_of (dev_in drv_full IMG_ACTION_IDENTIFY
                       IMG_ACQUIRE_STATE_AWAIT_IMAGE) in
  fpi_imgdev_session_error 7 w =
    Some (tt, {| w_dev := w_dev w;
                 w_log := [ReportIdentifyResult 7 0 None] |}).
Proof.
  intros w.
  exact (proj1 (session_error_notifies_only 7 w ltac:(discriminate))).
Defined.

(** Activation of a verify that fails with -5, and one that succeeds. *)
Lemma activate_complete_outcomes_witness :
  let w := world_of (dev_in drv_full IMG_ACTION_VERIFY
                       IMG_ACQUIRE_STATE_ACTIVATING) in
  fpi_imgdev_activate_complete (-5) w =
    Some (tt, {| w_dev := w_dev w; w_log := [VerifyStarted (-5)] |})
  /\ exists w',
       fpi_imgdev_activate_complete 0 w = Some (tt, w')
       /\ action_state (img_dev (w_dev w')) = IMG_ACQUIRE_STATE_AWAIT_FINGER_ON
       /\ w_log w' = [VerifyStarted 0;
                      DrvChangeState IMGDEV_STATE_AWAIT_FINGER_ON].
Proof.
  intros w.
  assert (Ha : action (img_dev (w_dev w)) <> IMG_ACTION_NONE)
    by (vm_compute; discriminate).
  split.
  - exact (proj1 (activate_complete_outcomes (-5) w) Ha ltac:(discriminate)).
  - destruct (proj1 (proj2 (activate_complete_outcomes 0 w)) Ha eq_refl)
      as (w' & E & Hdev & Hlog).
    exists w'. split; [exact E|]. split; [rewrite Hdev; reflexivity|].
    exact Hlog.
Defined.

(** Identify started on a blank device. *)
Lemma start_arms_for_image_witness :
  let w := world_of (dev_blank drv_full) in
  exists w',
    (generic_acquire_start IMG_ACTION_IDENTIFY ;;
     fpi_imgdev_activate_complete 0 ;;
     fpi_imgdev_report_finger_status true) w = Some (tt, w')
    /\ action (img_dev (w_dev w')) = IMG_ACTION_IDENTIFY
    /\ action_state (img_dev (w_dev w')) = IMG_ACQUIRE_STATE_AWAIT_IMAGE
    /\ w_log w' = [DrvActivate IMGDEV_STATE_AWAIT_FINGER_ON;
                   IdentifyStarted 0;
                   DrvChangeState IMGDEV_STATE_AWAIT_FINGER_ON;
                   DrvChangeState IMGDEV_STATE_CAPTURE].
Proof.
  intros w.
  destruct (start_arms_for_image IMG_ACTION_IDENTIFY w ltac:(discriminate))
    as (w' & E & Hdev & Hlog).
  exists w'. split; [exact E|].
  split; [rewrite Hdev; reflexivity|].
  split; [rewrite Hdev; reflexivity|exact Hlog].
Defined.

(** A capture holding result 0 and an image, the finger reported present
    again in AwaitFingerOff. *)
Lemma finger_report_delivers_result_witness :
  let d := dev_in drv_full IMG_ACTION_CAPTURE
             IMG_ACQUIRE_STATE_AWAIT_FINGER_OFF in
  let w := world_of (set_img_dev
                       (set_acquire_img (Some img_ten) (img_dev d)) d) in
  exists w',
    fpi_imgdev_report_finger_status true w = Some (tt, w')
    /\ w_log w' = [ReportCaptureResult 0 (Some img_ten)]
    /\ acquire_img (img_dev (w_dev w')) = None
    /\ action_state (img_dev (w_dev w')) = IMG_ACQUIRE_STATE_AWAIT_FINGER_OFF.
Proof.
  intros d w.
  destruct (finger_report_delivers_result true w)
    as (w' & E & Hlog & _ & Hdev & Hst);
    [ vm_compute; discriminate | vm_compute; discriminate
    | right; vm_compute; discriminate |].
  exists w'. split; [exact E|]. split; [exact Hlog|].
  split; [rewrite Hdev; reflexivity|exact Hst].
Defined.

(** Verify with score 40 against the default threshold. *)
Lemma verify_cycle_reports_verdict_witness :
  let w := world_of (dev_in drv_full IMG_ACTION_VERIFY
                       IMG_ACQUIRE_STATE_AWAIT_IMAGE) in
  exists w' p img',
    extraction_of (w_dev w) (img_score 40) = (0, Some p, img')
    /\ (fpi_imgdev_image_captured (img_score 40) ;;
        fpi_imgdev_report_finger_status false) w = Some (tt, w')
    /\ w_log w' = [DrvChangeState IMGDEV_STATE_AWAIT_FINGER_OFF;
                   ReportVerifyResult FP_VERIFY_MATCH (Some img');
                   PrintDataFree p]
    /\ action_result (img_dev (w_dev w')) = 0
    /\ acquire_data (img_dev (w_dev w')) = None.
Proof.
  intros w.
  edestruct (verify_cycle_reports_verdict (img_score 40) w)
    as (w' & E & Hlog & Hdev);
    [reflexivity | reflexivity | reflexivity
    | vm_compute; discriminate
    | vm_compute; reflexivity
    | vm_compute; discriminate
    | reflexivity
    | vm_compute; discriminate |].
  exists w'. do 2 eexists.
  split; [vm_compute; reflexivity|].
  split; [exact E|].
  split; [exact Hlog|].
  rewrite Hdev. split; reflexivity.
Defined.

(** Identify with score 40 against a one-template gallery. *)
Lemma identify_cycle_reports_gallery_result_witness :
  let w := world_of (dev_in drv_full IMG_ACTION_IDENTIFY
                       IMG_ACQUIRE_STATE_AWAIT_IMAGE) in
  exists w' p img',
    extraction_of (w_dev w) (img_score 40) = (0, Some p, img')
    /\ (fpi_imgdev_image_captured (img_score 40) ;;
        fpi_imgdev_report_finger_status false) w = Some (tt, w')
    /\ w_log w' = [DrvChangeState IMGDEV_STATE_AWAIT_FINGER_OFF;
                   ReportIdentifyResult 1 0 (Some img');
                   PrintDataFree p]
    /\ action_result (img_dev (w_dev w')) = 0.
Proof.
  intros w.
  edestruct (identify_cycle_reports_gallery_result (img_score 40) w)
    as (w' & E & Hlog & Hdev);
    [reflexivity | reflexivity | reflexivity
    | vm_compute; discriminate
    | vm_compute; reflexivity
    | vm_compute; discriminate
    | reflexivity
    | vm_compute; discriminate |].
  exists w'. do 2 eexists.
  split; [vm_compute; reflexivity|].
  split; [exact E|].
  split; [exact Hlog|].
  rewrite Hdev. reflexivity.
Defined.

(** Capture of a ten-pixel image on the fixed 4x3 driver. *)
Lemma capture_cycle_reports_image_witness :
  let w := world_of (dev_in drv_full IMG_ACTION_CAPTURE
                       IMG_ACQUIRE_STATE_AWAIT_IMAGE) in
  exists w1 w',
    fpi_imgdev_image_captured img_ten w = Some (tt, w1)
    /\ acquire_data (img_dev (w_dev w1)) = None
    /\ fpi_imgdev_report_finger_status false w1 = Some (tt, w')
    /\ w_log w' = [DrvChangeState IMGDEV_STATE_AWAIT_FINGER_OFF;
                   ReportCaptureResult FP_CAPTURE_COMPLETE (Some img_ten)]
    /\ action_result (img_dev (w_dev w')) = 0.
Proof.
  intros w.
  destruct (capture_cycle_reports_image img_ten w)
    as (w1 & w' & E1 & _ & Hdata & _ & E & Hlog & Hdev);
    [reflexivity | reflexivity | reflexivity | vm_compute; discriminate |].
  exists w1, w'. split; [exact E1|]. split; [exact Hdata|].
  split; [exact E|]. split; [exact Hlog|].
  rewrite Hdev. reflexivity.
Defined.


(** The first accepted enroll image on a device with five stages, with a
    front end that does nothing in the callback, and with one that cancels
    the enrollment there. *)
Lemma enroll_pass_cycle_rearms_witness :
  let w := world_of (dev_in drv_full IMG_ACTION_ENROLL
                       IMG_ACQUIRE_STATE_AWAIT_IMAGE) in
  (exists w' p item img',
     extraction_of (w_dev w) img_good = (0, Some p, img')
     /\ prints p = [item]
     /\ (fpi_imgdev_image_captured img_good ;;
         fpi_imgdev_report_finger_status (fe := front_end_passive) false) w
        = Some (tt, w')
     /\ action (img_dev (w_dev w')) = IMG_ACTION_ENROLL
     /\ action_state (img_dev (w_dev w')) = IMG_ACQUIRE_STATE_AWAIT_FINGER_ON
     /\ action_result (img_dev (w_dev w')) = 0
     /\ enroll_stage (img_dev (w_dev w')) = 1
     /\ enroll_data (img_dev (w_dev w')) =
          Some {| type := PRINT_DATA_RAW; prints := [item] |}
     /\ w_log w' = [PrintDataFree (set_prints [] p);
                    DrvChangeState IMGDEV_STATE_AWAIT_FINGER_OFF;
                    EnrollStageCompleted FP_ENROLL_PASS None (Some img');
                    DrvChangeState IMGDEV_STATE_AWAIT_FINGER_ON])
  /\ (exists w' p item img',
        extraction_of (w_dev w) img_good = (0, Some p, img')
        /\ prints p = [item]
        /\ (fpi_imgdev_image_captured img_good ;;
            fpi_imgdev_report_finger_status (fe := front_end_cancelling) false)
             w = Some (tt, w')
        /\ action (img_dev (w_dev w')) = IMG_ACTION_NONE
        /\ action_state (img_dev (w_dev w')) = IMG_ACQUIRE_STATE_NONE
        /\ w_log w' = [PrintDataFree (set_prints [] p);
                       DrvChangeState IMGDEV_STATE_AWAIT_FINGER_OFF;
                       EnrollStageCompleted FP_ENROLL_PASS None (Some img');
                       DrvDeactivate;
                       PrintDataFree
                         {| type := PRINT_DATA_RAW; prints := [item] |};
                       EnrollStopped]).
Proof.
  intros w. split.
  - edestruct (enroll_pass_cycle_rearms (fe := front_end_passive) img_good w)
      as (Hret & _);
      [ reflexivity | vm_compute; discriminate | vm_compute; discriminate
      | reflexivity | reflexivity | reflexivity
      | vm_compute; discriminate
      | vm_compute; reflexivity
      | vm_compute; discriminate
      | reflexivity
      | vm_compute; discriminate
      | reflexivity
      | vm_compute; split; [discriminate|reflexivity]
      | vm_compute; discriminate |].
    edestruct Hret as (w' & E & Hrearm & _); [vm_compute; reflexivity|].
    destruct (Hrearm eq_refl) as (Hdev & Hlog).
    exists w'. do 3 eexists.
    split; [vm_compute; reflexivity|].
    split; [reflexivity|].
    split; [exact E|].
    rewrite Hdev, Hlog.
    split; [reflexivity|]. split; [reflexivity|]. split; [reflexivity|].
    split; [reflexivity|]. split; reflexivity.
  - edestruct (enroll_pass_cycle_rearms (fe := front_end_cancelling) img_good w)
      as (Hret & _);
      [ reflexivity | vm_compute; discriminate | vm_compute; discriminate
      | reflexivity | reflexivity | reflexivity
      | vm_compute; discriminate
      | vm_compute; reflexivity
      | vm_compute; discriminate
      | reflexivity
      | vm_compute; discriminate
      | reflexivity
      | vm_compute; split; [discriminate|reflexivity]
      | vm_compute; discriminate |].
    edestruct Hret as (w' & E & _ & Hcancel); [vm_compute; reflexivity|].
    rewrite (Hcancel ltac:(cbn; discriminate)) in E.
    do 4 eexists.
    split; [vm_compute; reflexivity|].
    split; [reflexivity|].
    split; [exact E|].
    split; [reflexivity|]. split; reflexivity.
Defined.

(** An enroll image with nine minutiae, one stage already done, with the
    same two front ends. *)
Lemma enroll_retry_cycle_rearms_witness :
  let d := dev_in drv_full IMG_ACTION_ENROLL IMG_ACQUIRE_STATE_AWAIT_IMAGE in
  let w := world_of (set_img_dev (set_enroll_stage 1 (img_dev d)) d) in
  (exists w' p img',
     extraction_of (w_dev w) img_nine = (0, Some p, img')
     /\ minutiae img' = Some {| num := 9 |}
     /\ (fpi_imgdev_image_captured img_nine ;;
         fpi_imgdev_report_finger_status (fe := front_end_passive) false) w
        = Some (tt, w')
     /\ action (img_dev (w_dev w')) = IMG_ACTION_ENROLL
     /\ action_state (img_dev (w_dev w')) = IMG_ACQUIRE_STATE_AWAIT_FINGER_ON
     /\ action_result (img_dev (w_dev w')) = 0
     /\ enroll_stage (img_dev (w_dev w')) = 1
     /\ w_log w' = [PrintDataFree p;
                    DrvChangeState IMGDEV_STATE_AWAIT_FINGER_OFF;
                    EnrollStageCompleted FP_ENROLL_RETRY None (Some img');
                    DrvChangeState IMGDEV_STATE_AWAIT_FINGER_ON])
  /\ (exists w' p img',
        extraction_of (w_dev w) img_nine = (0, Some p, img')
        /\ (fpi_imgdev_image_captured img_nine ;;
            fpi_imgdev_report_finger_status (fe := front_end_cancelling) false)
             w = Some (tt, w')
        /\ action (img_dev (w_dev w')) = IMG_ACTION_NONE
        /\ action_state (img_dev (w_dev w')) = IMG_ACQUIRE_STATE_NONE
        /\ w_log w' = [PrintDataFree p;
                       DrvChangeState IMGDEV_STATE_AWAIT_FINGER_OFF;
                       EnrollStageCompleted FP_ENROLL_RETRY None (Some img');
                       DrvDeactivate;
                       EnrollStopped]).
Proof.
  intros d w. split.
  - edestruct (enroll_retry_cycle_rearms (fe := front_end_passive) img_nine w)
      as (Hret & _);
      [ reflexivity | vm_compute; discriminate | vm_compute; discriminate
      | reflexivity | reflexivity | reflexivity
      | vm_compute; discriminate
      | vm_compute; reflexivity
      | right; exists {| num := 9 |}; split; reflexivity |].
    edestruct Hret as (w' & E & Hrearm & _); [vm_compute; reflexivity|].
    destruct (Hrearm eq_refl) as (Hdev & Hlog).
    exists w'. do 2 eexists.
    split; [vm_compute; reflexivity|].
    split; [reflexivity|].
    split; [exact E|].
    rewrite Hdev, Hlog.
    split; [reflexivity|]. split; [reflexivity|]. split; [reflexivity|].
    split; reflexivity.
  - edestruct (enroll_retry_cycle_rearms (fe := front_end_cancelling)
                 img_nine w) as (Hret & _);
      [ reflexivity | vm_compute; discriminate | vm_compute; discriminate
      | reflexivity | reflexivity | reflexivity
      | vm_compute; discriminate
      | vm_compute; reflexivity
      | right; exists {| num := 9 |}; split; reflexivity |].
    edestruct Hret as (w' & E & _ & Hcancel); [vm_compute; reflexivity|].
    rewrite (Hcancel ltac:(cbn; discriminate)) in E.
    do 3 eexists.
    split; [vm_compute; reflexivity|].
    split; [exact E|].
    split; [reflexivity|]. split; reflexivity.
Defined.

(** An enroll image that declares no width on the variable-width driver. *)
Lemma enroll_input_error_is_final_witness :
  let w := world_of (dev_in drv_tall IMG_ACTION_ENROLL
                       IMG_ACQUIRE_STATE_AWAIT_IMAGE) in
  exists w',
    fst (sanitize_image (w_dev w) img_flat) < 0
    /\ (fpi_imgdev_image_captured img_flat ;;
        fpi_imgdev_report_finger_status false) w = Some (tt, w')
    /\ action_state (img_dev (w_dev w')) = IMG_ACQUIRE_STATE_AWAIT_FINGER_OFF
    /\ action_result (img_dev (w_dev w')) = -22
    /\ w_log w' = [ImgFree img_flat;
                   DrvChangeState IMGDEV_STATE_AWAIT_FINGER_OFF;
                   EnrollStageCompleted (-22) None None].
Proof.
  intros w.
  assert (Hf : fst (sanitize_image (w_dev w) img_flat) < 0) by reflexivity.
  destruct (enroll_input_error_is_final img_flat w)
    as (w' & E & Hdev & Hlog);
    [ vm_compute; discriminate | reflexivity | reflexivity | reflexivity
    | exact Hf |].
  exists w'. split; [exact Hf|]. split; [exact E|].
  split; [rewrite Hdev; reflexivity|].
  split; [rewrite Hdev; reflexivity|exact Hlog].
Defined.

(** The driver aborts a verify scan with code -71 while a retry code is
    pending. *)
Lemma abort_scan_is_reported_witness :
  let d := dev_in drv_full IMG_ACTION_VERIFY IMG_ACQUIRE_STATE_AWAIT_IMAGE in
  let w := world_of (set_img_dev (set_action_result 100 (img_dev d)) d) in
  exists w1 w',
    fpi_imgdev_abort_scan (-71) w = Some (tt, w1)
    /\ action_result (img_dev (w_dev w1)) = -71
    /\ fpi_imgdev_report_finger_status false w1 = Some (tt, w')
    /\ w_log w' = [DrvChangeState IMGDEV_STATE_AWAIT_FINGER_OFF;
                   ReportVerifyResult (-71) None]
    /\ action_result (img_dev (w_dev w')) = 0.
Proof.
  intros d w.
  destruct (abort_scan_is_reported (-71) w)
    as (w1 & w' & E1 & Hres & _ & E & Hlog & Hdev);
    [vm_compute; discriminate | vm_compute; discriminate |].
  exists w1, w'. split; [exact E1|]. split; [exact Hres|].
  split; [exact E|]. split; [exact Hlog|].
  rewrite Hdev. reflexivity.
Defined.

(** Enroll stopped after its third accepted image, then verify started. *)
Lemma stop_then_start_is_clean_witness :
  exists w3 w',
    enroll_until_lift 3 (world_of (dev_blank drv_full)) = Some (tt, w3)
    /\ enroll_stage (img_dev (w_dev w3)) = 3
    /\ (img_dev_stop IMG_ACTION_ENROLL false ;;
        fpi_imgdev_deactivate_complete ;;
        generic_acquire_start IMG_ACTION_VERIFY) w3 = Some (0, w')
    /\ img_dev (w_dev w') =
         set_action_state IMG_ACQUIRE_STATE_ACTIVATING
           (set_action IMG_ACTION_VERIFY imgdev_zero).
Proof.
  destruct (enroll_until_lift 3 (world_of (dev_blank drv_full)))
    as [[[] w3]|] eqn:E3; [|vm_compute in E3; discriminate].
  assert (Ha : action (img_dev (w_dev w3)) = IMG_ACTION_ENROLL)
    by (vm_compute in E3; inversion E3; reflexivity).
  destruct (stop_then_start_is_clean IMG_ACTION_ENROLL IMG_ACTION_VERIFY
              false w3 ltac:(discriminate) Ha)
    as (w' & E & Hdev & _).
  exists w3, w'. split; [reflexivity|].
  split; [vm_compute in E3; inversion E3; reflexivity|].
  split.
  - rewrite E. vm_compute in E3. inversion E3. reflexivity.
  - rewrite Hdev. vm_compute in E3. inversion E3. reflexivity.
Defined.

(** A device with two enroll stages done and an accumulator, running a whole
    verify cycle and its deactivation. *)
Lemma other_actions_keep_enrollment_witness :
  let d := dev_in drv_full IMG_ACTION_VERIFY
             IMG_ACQUIRE_STATE_AWAIT_FINGER_ON in
  let w := world_of (set_img_dev
                       (set_enroll_stage 2
                          (set_enroll_data (Some tmpl_ref) (img_dev d))) d) in
  let es := finger_cycle (img_score 40) ++ [SessionError 3; DeactivateComplete] in
  exists w',
    deliver_all es w = Some (tt, w')
    /\ enroll_stage (img_dev (w_dev w')) = 2
    /\ enroll_data (img_dev (w_dev w')) = Some tmpl_ref.
Proof.
  intros d w es.
  destruct (deliver_all es w) as [[[] w']|] eqn:E;
    [|vm_compute in E; discriminate].
  destruct (other_actions_keep_enrollment es w w'
              ltac:(vm_compute; discriminate) E) as (Hs & Hd).
  exists w'. split; [reflexivity|]. split; assumption.
Defined.

(** Open on a driver without an open callable. *)
Lemma img_dev_open_outcome_witness :
  exists w',
    img_dev_open 0 (world_of (dev_blank drv_full)) = Some (0, w')
    /\ w_log w' = [OpenComplete 0]
    /\ nr_enroll_stages (w_dev w') = 5
    /\ img_dev (w_dev w') = imgdev_zero.
Proof.
  destruct (img_dev_open_outcome 0 (world_of (dev_blank drv_full)))
    as (w' & E & Hlog & Hnr & _ & _ & Hzero).
  exists w'. split; [exact E|]. split; [exact Hlog|].
  split; [exact Hnr|]. exact (Hzero eq_refl).
Defined.

(** The fixed 4x3 driver with an image that declares nothing, and the
    driver of variable size with a 4x3 image and with one of no width. *)
Lemma reported_geometry_is_enforced_witness :
  (let w := world_of (dev_in drv_full IMG_ACTION_CAPTURE
                        IMG_ACQUIRE_STATE_AWAIT_IMAGE) in
   fpi_imgdev_get_img_width w = Some (4, w)
   /\ fpi_imgdev_get_img_height w = Some (3, w)
   /\ fst (sanitize_image (w_dev w) img_good) = 0
   /\ width (snd (sanitize_image (w_dev w) img_good)) = 4
   /\ height (snd (sanitize_image (w_dev w) img_good)) = 3)
  /\ (let w := world_of (dev_in drv_variable IMG_ACTION_CAPTURE
                           IMG_ACQUIRE_STATE_AWAIT_IMAGE) in
      img_width (drv (w_dev w)) = -1
      /\ img_height (drv (w_dev w)) = -1
      /\ fpi_imgdev_get_img_width w = Some (0, w)
      /\ fpi_imgdev_get_img_height w = Some (0, w)
      /\ fst (sanitize_image (w_dev w) img_ten) = 0
      /\ width (snd (sanitize_image (w_dev w) img_ten)) = 4
      /\ height (snd (sanitize_image (w_dev w) img_ten)) = 3
      /\ fst (sanitize_image (w_dev w) img_flat) = - EINVAL
      /\ width (snd (sanitize_image (w_dev w) img_flat)) = 0
      /\ height (snd (sanitize_image (w_dev w) img_flat)) = 7).
Proof.
  split; intros w.
  - destruct (reported_geometry_is_enforced img_good w)
      as (wr & hr & Ew & Eh & _ & Hw & _ & Hh & _ & _ & _ & _ & Hgeo).
    rewrite (Hw ltac:(vm_compute; discriminate)) in *.
    rewrite (Hh ltac:(vm_compute; discriminate)) in *.
    destruct (Hgeo eq_refl) as (Hwidth & Hheight & _).
    split; [exact Ew|]. split; [exact Eh|]. split; [reflexivity|].
    split; [exact (Hwidth ltac:(reflexivity))
           |exact (Hheight ltac:(reflexivity))].
  - destruct (reported_geometry_is_enforced img_ten w)
      as (wr & hr & Ew & Eh & Hw & _ & Hh & _ & _ & _ & Hkw & Hkh & _).
    destruct (reported_geometry_is_enforced img_flat w)
      as (wr' & hr' & Ew' & Eh' & Hw' & _ & Hh' & _ & _ & _ & Hkw' & Hkh' & _).
    rewrite (Hw eq_refl) in *. rewrite (Hh eq_refl) in *.
    rewrite (Hw' eq_refl) in *. rewrite (Hh' eq_refl) in *.
    split; [reflexivity|]. split; [reflexivity|].
    split; [exact Ew|]. split; [exact Eh|]. split; [reflexivity|].
    split; [exact (Hkw ltac:(discriminate))|].
    split; [exact (Hkh ltac:(discriminate))|].
    split; [reflexivity|].
    split; [exact (Hkw' ltac:(discriminate))
           |exact (Hkh' ltac:(discriminate))].
Defined.

End FurtherEvaluation.
